(** * The request layer of the urban-online-workflow frontend

    A shallow embedding of [frontend/src/requests.js]: the JavaScript values
    the module handles, the promise chains it builds on [window.fetch], the
    console, the network and the random source it touches, and the twelve
    exported operations.  The theorems at the end compare the operations with
    the client contract written for them. *)

From Stdlib Require Import ZArith Lia Ascii DecimalString DecimalPos DecimalZ.
From stdpp Require Import base option list strings gmap finite.

Local Open Scope Z_scope.
Local Open Scope string_scope.
Local Open Scope list_scope.

(** ** JavaScript values *)

(** The values that flow through the module.  Numbers are the integer-valued
    ones (the elements of a [Uint8Array], the coordinates of the scenarios of
    the contract, all below 2^53 in magnitude, where ToString is the plain
    decimal text); strings are sequences of one-byte characters.  The
    property list of an object holds each name once, in enumeration order.
    A promise that appears as a plain object is kept with its settlement. *)
#[warnings="-register-all"]
Inductive jsval : Type :=
  | VUndefined
  | VNull
  | VBool (b : bool)
  | VNum (z : Z)
  | VStr (s : string)
  | VArr (elems : list jsval)
  | VObj (props : list (string * jsval))
  | VError (name message : string)
  | VPromise (fulfilled : bool) (v : jsval).

(** A settled promise, or the completion of a callback: a value, or the
    reason of a rejection (a thrown value). *)
Inductive settled (A : Type) : Type :=
  | Fulfilled (a : A)
  | Rejected (reason : jsval).
Arguments Fulfilled {A} a.
Arguments Rejected {A} reason.

Definition promise_object (p : settled jsval) : jsval :=
  match p with
  | Fulfilled v => VPromise true v
  | Rejected e => VPromise false e
  end.

Definition dquote : string := String (Ascii.ascii_of_nat 34) EmptyString.
Definition backslash : string := String (Ascii.ascii_of_nat 92) EmptyString.

(** [Number.prototype.toString] on a safe integer (below 2^53 in magnitude),
    where the text is the plain decimal; larger integers are rounded or
    written with an exponent by the language and are outside the embedding
    (see [safe_integer] and [renders] below). *)
Definition Number_toString (z : Z) : string :=
  NilZero.string_of_int (Z.to_int z).

(** [sep]-separated concatenation, the core of [Array.prototype.join]. *)
Fixpoint join_strings (sep : string) (l : list string) : string :=
  match l with
  | [] => ""
  | [s] => s
  | s :: rest => s +:+ sep +:+ join_strings sep rest
  end.

(** The abstract operation ToString, as applied by template literals and by
    [join], on the values it converts ([converts] below): an object with a
    [toString] member of its own makes the conversion throw, and for such a
    value the text given here is not produced. *)
Fixpoint ToString (v : jsval) : string :=
  match v with
  | VUndefined => "undefined"
  | VNull => "null"
  | VBool true => "true"
  | VBool false => "false"
  | VNum z => Number_toString z
  | VStr s => s
  | VArr elems =>
      join_strings ","
        (List.map (fun x => match x with
                            | VUndefined | VNull => ""
                            | _ => ToString x
                            end) elems)
  | VObj _ => "[object Object]"
  | VError name message =>
      if String.eqb name "" then message
      else if String.eqb message "" then name
      else name +:+ ": " +:+ message
  | VPromise _ _ => "[object Promise]"
  end.

(** [Array.prototype.join]: undefined and null elements give the empty
    string. *)
Definition join_text (x : jsval) : string :=
  match x with
  | VUndefined | VNull => ""
  | _ => ToString x
  end.

Definition Array_join (sep : string) (elems : list jsval) : string :=
  join_strings sep (List.map join_text elems).

(** [arr[i]]: reading past the end of an array gives undefined. *)
Definition index (arr : list jsval) (i : nat) : jsval :=
  default VUndefined (arr !! i).

(** [v.key] for the property names read in this module ([status],
    [scenario_id]); neither is a property of an array, a string, a number, a
    boolean, an Error or a Promise.  Reading a property of undefined or null
    throws a TypeError. *)
Fixpoint lookup_prop (key : string) (props : list (string * jsval)) : jsval :=
  match props with
  | [] => VUndefined
  | (k, v) :: rest => if String.eqb k key then v else lookup_prop key rest
  end.

Definition Get (v : jsval) (key : string) : settled jsval :=
  match v with
  | VUndefined =>
      Rejected (VError "TypeError"
                  ("Cannot read properties of undefined (reading '" +:+ key +:+ "')"))
  | VNull =>
      Rejected (VError "TypeError"
                  ("Cannot read properties of null (reading '" +:+ key +:+ "')"))
  | VObj props => Fulfilled (lookup_prop key props)
  | _ => Fulfilled VUndefined
  end.

(** ** JSON.stringify *)

Definition hex_digit (n : nat) : string :=
  String (Ascii.ascii_of_nat (if Nat.ltb n 10 then 48 + n else 87 + n)) EmptyString.

Definition JSON_escape_char (c : Ascii.ascii) : string :=
  let n := Ascii.nat_of_ascii c in
  if Nat.eqb n 34 then backslash +:+ dquote
  else if Nat.eqb n 92 then backslash +:+ backslash
  else if Nat.eqb n 8 then backslash +:+ "b"
  else if Nat.eqb n 9 then backslash +:+ "t"
  else if Nat.eqb n 10 then backslash +:+ "n"
  else if Nat.eqb n 12 then backslash +:+ "f"
  else if Nat.eqb n 13 then backslash +:+ "r"
  else if Nat.ltb n 32
       then backslash +:+ "u00" +:+ hex_digit (Nat.div n 16) +:+ hex_digit (Nat.modulo n 16)
  else String c EmptyString.

Fixpoint JSON_escape (s : string) : string :=
  match s with
  | EmptyString => ""
  | String c rest => JSON_escape_char c +:+ JSON_escape rest
  end.

Definition JSON_quote (s : string) : string :=
  dquote +:+ JSON_escape s +:+ dquote.

(** [JSON.stringify(v)]; [None] is the result undefined.  A property whose
    value serialises to undefined is left out of an object and written as
    null in an array; Error and Promise objects have no enumerable property
    of their own. *)
Fixpoint JSON_stringify (v : jsval) : option string :=
  match v with
  | VUndefined => None
  | VNull => Some "null"
  | VBool true => Some "true"
  | VBool false => Some "false"
  | VNum z => Some (Number_toString z)
  | VStr s => Some (JSON_quote s)
  | VArr elems =>
      Some ("[" +:+
            join_strings ","
              (List.map (fun x => default "null" (JSON_stringify x)) elems)
            +:+ "]")
  | VObj props =>
      let fix members (ps : list (string * jsval)) : list string :=
        match ps with
        | [] => []
        | (k, x) :: rest =>
            match JSON_stringify x with
            | Some s => (JSON_quote k +:+ ":" +:+ s) :: members rest
            | None => members rest
            end
        end in
      Some ("{" +:+ join_strings "," (members props) +:+ "}")
  | VError _ _ => Some "{}"
  | VPromise _ _ => Some "{}"
  end.

(** ** The world outside the module *)

(** What [window.fetch] is given: the URL and the [init] object. *)
Record Request : Type := mkRequest {
  url : string;
  method : string;
  headers : list (string * string);
  body : option string
}.

(** The body of a response as [Response.json()] sees it: text that parses to
    a JSON value, or text that does not (with the message of the SyntaxError
    the parser raises). *)
Inductive Body : Type :=
  | JsonBody (v : jsval)
  | BadBody (message : string).

Record Response : Type := mkResponse {
  http_status : Z;
  payload : Body
}.

(** [fetch] rejects only when no response arrives; any HTTP status is a
    fulfilled promise. *)
Inductive FetchOutcome : Type :=
  | NetworkFailure (reason : jsval)
  | Responded (r : Response).

(** The backend answers a request knowing the requests sent before it; the
    console keeps the argument list of every [console.log]; the random source
    is a stream of bytes read at a cursor. *)
Record World : Type := mkWorld {
  server : list Request -> Request -> FetchOutcome;
  sent : list Request;
  console : list (list jsval);
  entropy : nat -> Byte.byte;
  drawn : nat
}.

(** ** Effects *)

Definition M (A : Type) : Type := World -> A * World.

Definition ret {A} (a : A) : M A := fun w => (a, w).

Definition bind {A B} (m : M A) (k : A -> M B) : M B :=
  fun w => let (a, w') := m w in k a w'.

Notation "'let*' x := m 'in' k" := (bind m (fun x => k))
  (at level 10, x name, m at level 100, k at level 200).
Notation "m >> k" := (bind m (fun _ => k))
  (at level 100, k at level 200, right associativity).
Notation "m >>= f" := (bind m f)
  (at level 50, left associativity, only parsing).

(** [console.log(...args)] returns undefined. *)
Definition console_log (args : list jsval) : M jsval :=
  fun w => (VUndefined,
            mkWorld (server w) (sent w) (console w ++ [args]) (entropy w) (drawn w)).

(** [window.fetch(url, init)]: the request goes out, and the promise settles
    with what the backend does with it. *)
Definition fetch (rq : Request) : M (settled Response) :=
  fun w =>
    (match server w (sent w) rq with
     | NetworkFailure reason => Rejected reason
     | Responded r => Fulfilled r
     end,
     mkWorld (server w) (sent w ++ [rq]) (console w) (entropy w) (drawn w)).

(** The number held by an element of a [Uint8Array]. *)
Definition byte_value (b : Byte.byte) : Z := Z.of_N (Byte.to_N b).

(** [window.crypto.getRandomValues(new Uint8Array(n))]: the array filled with
    the next [n] bytes of the source. *)
Definition getRandomValues (n : nat) : M (list jsval) :=
  fun w =>
    (List.map (fun i => VNum (byte_value (entropy w (drawn w + i)%nat))) (seq 0 n),
     mkWorld (server w) (sent w) (console w) (entropy w) (drawn w + n)%nat).

(** [response.json()]: a promise for the decoded body. *)
Definition Response_json (r : Response) : settled jsval :=
  match payload r with
  | JsonBody v => Fulfilled v
  | BadBody message => Rejected (VError "SyntaxError" message)
  end.

(** [p.then(f)]: [f] runs on the value of a fulfilled [p]; what it returns
    (a value, a promise that is then adopted, or a throw) settles the new
    promise.  A rejected [p] passes its reason on. *)
Definition then_ {A B} (f : A -> M (settled B)) (p : settled A) : M (settled B) :=
  match p with
  | Fulfilled a => f a
  | Rejected reason => ret (Rejected reason)
  end.

(** [p.catch(f)]: [f] runs on the reason of a rejected [p]. *)
Definition catch_ {A} (f : jsval -> M (settled A)) (p : settled A) : M (settled A) :=
  match p with
  | Fulfilled a => ret (Fulfilled a)
  | Rejected reason => f reason
  end.

(** A callback or an async function that returns the value [v]. *)
Definition returns {A} (m : M A) : M (settled A) :=
  let* v := m in ret (Fulfilled v).

Definition Promise_resolve {A} (v : A) : M (settled A) := ret (Fulfilled v).

(** ** The operations of requests.js *)

Definition apiBaseURL : string := "http://127.0.0.1:8000".

Definition json_headers : list (string * string) :=
  [("Content-Type", "application/json")].

Definition createSession : M (settled jsval) :=
  fetch (mkRequest (apiBaseURL +:+ "/users") "post" json_headers None)
    >>= then_ (fun response => ret (Response_json response))
    >>= catch_ (fun error => returns (console_log [error])).

Definition getAllScenarios (sessionID : jsval) : M (settled jsval) :=
  fetch (mkRequest (apiBaseURL +:+ "/scenarios/" +:+ ToString sessionID) "get" [] None)
    >>= then_ (fun response => ret (Response_json response))
    >>= catch_ (fun error => returns (console_log [error])).

Definition getScenario (id : jsval) : M (settled jsval) :=
  fetch (mkRequest (apiBaseURL +:+ "/scenario/" +:+ ToString id) "get" [] None)
    >>= then_ (fun response => ret (Response_json response))
    >>= catch_ (fun error => returns (console_log [error])).

Definition makeScenario (sessionID name description : jsval) : M (settled jsval) :=
  fetch (mkRequest (apiBaseURL +:+ "/scenario/" +:+ ToString sessionID) "post" json_headers
           (JSON_stringify (VObj [("name", name); ("description", description)])))
    >>= then_ (fun response => ret (Response_json response))
    >>= then_ (fun json => ret (Get json "scenario_id"))
    >>= catch_ (fun error => returns (console_log [error])).

(** The callback reads [status] off the promise that [response.json()]
    returns, not off the decoded body. *)
Definition getJobStatus (jobID : jsval) : M (settled jsval) :=
  fetch (mkRequest (apiBaseURL +:+ "/job/" +:+ ToString jobID) "get" [] None)
    >>= then_ (fun response => ret (Get (promise_object (Response_json response)) "status"))
    >>= catch_ (fun error => returns (console_log [error])).

(** The template literal of [doWallpaper]: one [x y] text per point, joined
    with a comma and a space. *)
Definition targetWKT (targetCoords : list (list jsval)) : string :=
  "POLYGON((" +:+
  Array_join ", "
    (List.map (fun coords => VStr (ToString (index coords 0) +:+ " " +:+ ToString (index coords 1)))
       targetCoords)
  +:+ "))".

Definition doWallpaper (targetCoords : list (list jsval)) (patternID scenarioID : jsval)
  : M (settled jsval) :=
  console_log [VStr (targetWKT targetCoords); scenarioID; patternID] >>
  fetch (mkRequest (apiBaseURL +:+ "/wallpaper") "post" json_headers
           (JSON_stringify (VObj [("scenario_id", scenarioID);
                                  ("target_parcel_wkt", VStr (targetWKT targetCoords));
                                  ("pattern_id", patternID)])))
    >>= then_ (fun response => ret (Response_json response))
    >>= catch_ (fun error => returns (console_log [error])).


Definition getWallpaperResults (jobID : jsval) : M (settled jsval) :=
  let* forest := getRandomValues 1 in
  let* housing := getRandomValues 1 in
  let* grass := getRandomValues 1 in
  let* commercial := getRandomValues 1 in
  let* orchard := getRandomValues 1 in
  Promise_resolve (VObj [("forest", index forest 0);
                         ("housing", index housing 0);
                         ("grass", index grass 0);
                         ("commercial", index commercial 0);
                         ("orchard", index orchard 0)]).

Definition getLulcTableForParcel (geom : jsval) : M (settled jsval) :=
  let* forest := getRandomValues 1 in
  let* grass := getRandomValues 1 in
  let* housing := getRandomValues 1 in
  let* commercial := getRandomValues 1 in
  let* orchard := getRandomValues 1 in
  Promise_resolve (VObj [("forest", index forest 0);
                         ("grass", index grass 0);
                         ("housing", index housing 0);
                         ("commercial", index commercial 0);
                         ("orchard", index orchard 0)]).

(** The keys of the object literal are the property names 1 to 5. *)
Definition getLulcCodes : M (settled jsval) :=
  Promise_resolve (VObj [("1", VStr "forest");
                         ("2", VStr "grass");
                         ("3", VStr "housing");
                         ("4", VStr "commercial");
                         ("5", VStr "orchard")]).

Definition getPatterns (sessionID : jsval) : M (settled jsval) :=
  fetch (mkRequest (apiBaseURL +:+ "/pattern/" +:+ ToString sessionID) "get" [] None)
    >>= then_ (fun response => ret (Response_json response))
    >>= catch_ (fun error => returns (console_log [error])).

Definition createPattern (geom name : jsval) : M (settled jsval) :=
  console_log [VStr ("create pattern " +:+ ToString name +:+ " with geometry " +:+ ToString geom)] >>
  let* id := getRandomValues 1 in
  Promise_resolve (index id 0).

(** Successive calls of [createPattern], one per (geometry, name) pair, in
    order. *)
Fixpoint createPattern_each (calls : list (jsval * jsval)) : M (list (settled jsval)) :=
  match calls with
  | [] => ret []
  | (geom, name) :: rest =>
      let* id := createPattern geom name in
      let* ids := createPattern_each rest in
      ret (id :: ids)
  end.

(** The seven operations that go to the network, with their arguments. *)
Inductive ClientOp : Type :=
  | CreateSession
  | GetAllScenarios (sessionID : jsval)
  | GetScenario (id : jsval)
  | MakeScenario (sessionID name description : jsval)
  | GetJobStatus (jobID : jsval)
  | DoWallpaper (targetCoords : list (list jsval)) (patternID scenarioID : jsval)
  | GetPatterns (sessionID : jsval).

Definition perform (op : ClientOp) : M (settled jsval) :=
  match op with
  | CreateSession => createSession
  | GetAllScenarios sessionID => getAllScenarios sessionID
  | GetScenario id => getScenario id
  | MakeScenario sessionID name description => makeScenario sessionID name description
  | GetJobStatus jobID => getJobStatus jobID
  | DoWallpaper targetCoords patternID scenarioID => doWallpaper targetCoords patternID scenarioID
  | GetPatterns sessionID => getPatterns sessionID
  end.

(** ** The contract's side *)

(** The text of one point, [x y]. *)
Definition point_text (coords : list jsval) : string :=
  ToString (index coords 0) +:+ " " +:+ ToString (index coords 1).

(** The polygon text that lists exactly the given points. *)
Definition points_wkt (g : list (list jsval)) : string :=
  "POLYGON((" +:+ join_strings ", " (List.map point_text g) +:+ "))".

(** The closed-ring polygon text of the contract,
    [POLYGON((x1 y1, x2 y2, ..., x1 y1))]: the points of the geometry, then
    the first one again. *)
Definition closed_ring_wkt (g : list (list jsval)) : string :=
  "POLYGON((" +:+ join_strings ", " (List.map point_text (g ++ take 1 g)) +:+ "))".

(** The request of each operation, after the endpoint table of the contract:
    method, path and body. *)
Definition wallpaper_request (wkt : string) (patternID scenarioID : jsval) : Request :=
  mkRequest (apiBaseURL +:+ "/wallpaper") "post" json_headers
    (JSON_stringify (VObj [("scenario_id", scenarioID);
                           ("target_parcel_wkt", VStr wkt);
                           ("pattern_id", patternID)])).

Definition job_request (jobID : jsval) : Request :=
  mkRequest (apiBaseURL +:+ "/job/" +:+ ToString jobID) "get" [] None.

Definition endpoint (op : ClientOp) : Request :=
  match op with
  | CreateSession => mkRequest (apiBaseURL +:+ "/users") "post" json_headers None
  | GetAllScenarios sessionID =>
      mkRequest (apiBaseURL +:+ "/scenarios/" +:+ ToString sessionID) "get" [] None
  | GetScenario id =>
      mkRequest (apiBaseURL +:+ "/scenario/" +:+ ToString id) "get" [] None
  | MakeScenario sessionID name description =>
      mkRequest (apiBaseURL +:+ "/scenario/" +:+ ToString sessionID) "post" json_headers
        (JSON_stringify (VObj [("name", name); ("description", description)]))
  | GetJobStatus jobID => job_request jobID
  | DoWallpaper targetCoords patternID scenarioID =>
      wallpaper_request (points_wkt targetCoords) patternID scenarioID
  | GetPatterns sessionID =>
      mkRequest (apiBaseURL +:+ "/pattern/" +:+ ToString sessionID) "get" [] None
  end.

(** What an operation writes to the console before it calls [fetch]. *)
Definition prologue (op : ClientOp) : list (list jsval) :=
  match op with
  | DoWallpaper targetCoords patternID scenarioID =>
      [[VStr (points_wkt targetCoords); scenarioID; patternID]]
  | _ => []
  end.

(** Whether the operation hands the decoded body on through its chain. *)
Definition awaits_body (op : ClientOp) : bool :=
  match op with
  | GetJobStatus _ => false
  | _ => true
  end.

(** A promise that fails with an error of the given kind. *)
Definition fails_with {A} (kind : string) (p : settled A) : bool :=
  match p with
  | Rejected (VError name _) => String.eqb name kind
  | _ => false
  end.

(** The status that the backend holds for a job: the [status] member of the
    body it would answer [GET /job/{jobID}] with. *)
Definition backend_status (w : World) (jobID : jsval) : option jsval :=
  match server w (sent w) (job_request jobID) with
  | Responded r =>
      match payload r with
      | JsonBody (VObj props) => Some (lookup_prop "status" props)
      | _ => None
      end
  | NetworkFailure _ => None
  end.

(** The key set of a table, and the category names of the code registry. *)
Definition key_set (props : list (string * jsval)) : gset string :=
  list_to_set (List.map fst props).

Definition name_of (v : jsval) : option string :=
  match v with
  | VStr s => Some s
  | _ => None
  end.

Definition registry_names (codes : settled jsval) : gset string :=
  match codes with
  | Fulfilled (VObj props) => list_to_set (omap (fun kv => name_of (snd kv)) props)
  | _ => ∅
  end.

Definition category_names : gset string :=
  {[ "forest"; "grass"; "housing"; "commercial"; "orchard" ]}.

(** The identifier carried by the result of [createPattern]. *)
Definition issued_id (p : settled jsval) : option Z :=
  match p with
  | Fulfilled (VNum z) => Some z
  | _ => None
  end.

(** The 256 results that [createPattern] can settle with. *)
Definition one_byte_ids : list (settled jsval) :=
  (fun z => Fulfilled (VNum z)) <$> seqZ 0 256.

(** ** Concrete worlds *)

Definition fresh_world (srv : list Request -> Request -> FetchOutcome)
  (rnd : nat -> Byte.byte) : World :=
  mkWorld srv [] [] rnd 0.

Definition network_down : list Request -> Request -> FetchOutcome :=
  fun _ _ => NetworkFailure (VError "TypeError" "Failed to fetch").

Definition garbled : list Request -> Request -> FetchOutcome :=
  fun _ _ => Responded (mkResponse 200 (BadBody "Unexpected token < in JSON at position 0")).

Definition answers (v : jsval) : list Request -> Request -> FetchOutcome :=
  fun _ _ => Responded (mkResponse 200 (JsonBody v)).

Definition sevens : nat -> Byte.byte := fun _ => Byte.x07.

(** The square of the contract's scenario and a two-point geometry. *)
Definition square : list (list jsval) :=
  [[VNum 0; VNum 0]; [VNum 0; VNum 1]; [VNum 1; VNum 1]; [VNum 1; VNum 0]].

Definition segment : list (list jsval) :=
  [[VNum 0; VNum 0]; [VNum 1; VNum 1]].

(** ** Sequences of calls *)

(** Network operations awaited one after the other, in order. *)
Fixpoint perform_all (ops : list ClientOp) : M (list (settled jsval)) :=
  match ops with
  | [] => ret []
  | op :: rest =>
      let* r := perform op in
      let* rs := perform_all rest in
      ret (r :: rs)
  end.

(** The operations that hand the decoded body back as their result. *)
Definition returns_body (op : ClientOp) : bool :=
  match op with
  | MakeScenario _ _ _ | GetJobStatus _ => false
  | _ => true
  end.

(** The bytes that the next [n] draws from the random source give. *)
Definition next_bytes (w : World) (n : nat) : list Byte.byte :=
  List.map (fun i => entropy w (drawn w + i)%nat) (seq 0 n).

(** The console line of one [createPattern] call. *)
Definition pattern_log (call : jsval * jsval) : list jsval :=
  [VStr ("create pattern " +:+ ToString (snd call)
         +:+ " with geometry " +:+ ToString (fst call))].

(** The result of [createPattern] when the source gives the byte [b]. *)
Definition id_of_byte (b : Byte.byte) : settled jsval :=
  Fulfilled (VNum (byte_value b)).

(** A random source that happens to count: 0, 1, ..., 255, 0, ... *)
Definition counting : nat -> Byte.byte :=
  fun i => default Byte.x00 (Byte.of_nat (i mod 256)).

(** The pair of coordinates that the codec reads off a point. *)
Definition first_two (coords : list jsval) : list jsval :=
  [index coords 0; index coords 1].

(** ** Reading polygon text back *)

(** The characters of a decimal integer. *)
Definition numeric_char (c : Ascii.ascii) : bool :=
  (fix mem (s : string) : bool :=
     match s with
     | EmptyString => false
     | String a rest => Ascii.eqb a c || mem rest
     end) "-0123456789".

(** A geometry of integer coordinate pairs, as the arrays the codec takes. *)
Definition integer_point (p : Z * Z) : list jsval := [VNum (fst p); VNum (snd p)].

Fixpoint occurs (c : Ascii.ascii) (s : string) : bool :=
  match s with
  | EmptyString => false
  | String a rest => Ascii.eqb a c || occurs c rest
  end.

(** The pieces of [s] between the occurrences of [c]. *)
Fixpoint fields (c : Ascii.ascii) (s : string) : list string :=
  match s with
  | EmptyString => [""]
  | String a rest =>
      if Ascii.eqb a c then "" :: fields c rest
      else match fields c rest with
           | h :: t => String a h :: t
           | [] => [String a ""]
           end
  end.

Definition strip_space (s : string) : string :=
  match s with
  | String a rest => if Ascii.eqb a " "%char then rest else s
  | EmptyString => s
  end.

Definition read_number (s : string) : option Z :=
  option_map Z.of_int (NilZero.int_of_string s).

Definition read_point (s : string) : option (Z * Z) :=
  match fields " "%char s with
  | [x; y] =>
      match read_number x, read_number y with
      | Some a, Some b => Some (a, b)
      | _, _ => None
      end
  | _ => None
  end.

Fixpoint read_points (pieces : list string) : option (list (Z * Z)) :=
  match pieces with
  | [] => Some []
  | s :: rest =>
      match read_point (strip_space s), read_points rest with
      | Some p, Some ps => Some (p :: ps)
      | _, _ => None
      end
  end.

Fixpoint strip_prefix (pre s : string) : option string :=
  match pre, s with
  | EmptyString, _ => Some s
  | String a pre', String b s' => if Ascii.eqb a b then strip_prefix pre' s' else None
  | String _ _, EmptyString => None
  end.

(** A reader for the text that [targetWKT] writes for integer points. *)
Definition read_wkt (s : string) : option (list (Z * Z)) :=
  match strip_prefix "POLYGON((" s with
  | Some rest =>
      match fields ")"%char rest with
      | inner :: _ => if String.eqb inner "" then Some [] else read_points (fields ","%char inner)
      | [] => None
      end
  | None => None
  end.

(** ** The layer names of mapboxLayerNames.js *)

Definition labels : list string :=
  [ "building-number-label";
    "road-label";
    "road-number-shield";
    "road-exit-shield";
    "golf-hole-label";
    "waterway-label";
    "natural-line-label";
    "natural-point-label";
    "water-line-label";
    "water-point-label";
    "poi-label";
    "transit-label";
    "airport-label";
    "settlement-subdivision-label";
    "settlement-label";
    "state-label";
    "country-label" ].

Definition nonLabels : list string :=
  [ "landcover";
    "national-park";
    "landuse";
    "pitch-outline";
    "water-shadow";
    "waterway";
    "water";
    "hillshade";
    "land-structure-polygon";
    "land-structure-line";
    "aeroway-polygon";
    "aeroway-line";
    "building-outline";
    "building";
    "tunnel-street-minor-low";
    "tunnel-street-minor-case";
    "tunnel-primary-secondary-tertiary-case";
    "tunnel-major-link-case";
    "tunnel-motorway-trunk-case";
    "tunnel-construction";
    "tunnel-path";
    "tunnel-steps";
    "tunnel-major-link";
    "tunnel-pedestrian";
    "tunnel-street-minor";
    "tunnel-primary-secondary-tertiary";
    "tunnel-oneway-arrow-blue";
    "tunnel-motorway-trunk";
    "tunnel-oneway-arrow-white";
    "ferry";
    "ferry-auto";
    "road-path-bg";
    "road-steps-bg";
    "turning-feature-outline";
    "road-pedestrian-case";
    "road-minor-low";
    "road-street-low";
    "road-minor-case";
    "road-street-case";
    "road-secondary-tertiary-case";
    "road-primary-case";
    "road-major-link-case";
    "road-motorway-trunk-case";
    "road-construction";
    "road-path";
    "road-steps";
    "road-major-link";
    "road-pedestrian";
    "road-pedestrian-polygon-fill";
    "road-pedestrian-polygon-pattern";
    "road-polygon";
    "road-minor";
    "road-street";
    "road-secondary-tertiary";
    "road-primary";
    "road-oneway-arrow-blue";
    "road-motorway-trunk";
    "road-rail";
    "road-rail-tracks";
    "level-crossing";
    "road-oneway-arrow-white";
    "turning-feature";
    "golf-hole-line";
    "bridge-path-bg";
    "bridge-steps-bg";
    "bridge-pedestrian-case";
    "bridge-street-minor-low";
    "bridge-street-minor-case";
    "bridge-primary-secondary-tertiary-case";
    "bridge-major-link-case";
    "bridge-motorway-trunk-case";
    "bridge-construction";
    "bridge-path";
    "bridge-steps";
    "bridge-major-link";
    "bridge-pedestrian";
    "bridge-street-minor";
    "bridge-primary-secondary-tertiary";
    "bridge-oneway-arrow-blue";
    "bridge-motorway-trunk";
    "bridge-rail";
    "bridge-rail-tracks";
    "bridge-major-link-2-case";
    "bridge-motorway-trunk-2-case";
    "bridge-major-link-2";
    "bridge-motorway-trunk-2";
    "bridge-oneway-arrow-white";
    "aerialway";
    "admin-1-boundary-bg";
    "admin-0-boundary-bg";
    "admin-1-boundary";
    "admin-0-boundary";
    "admin-0-boundary-disputed" ].

Fixpoint ends_with (suffix s : string) : bool :=
  String.eqb suffix s
  || match s with
     | EmptyString => false
     | String _ rest => ends_with suffix rest
     end.

(** ** The arguments the embedding covers *)

(** The integers that are numbers of the language exactly and whose text is
    their plain decimal: those below 2^53 in magnitude. *)
Definition safe_integer (z : Z) : bool := (Z.abs z <=? 9007199254740991)%Z.

Definition has_own (key : string) (props : list (string * jsval)) : bool :=
  existsb (fun kv => String.eqb (fst kv) key) props.

(** The values that a template literal converts without throwing.  No value
    here is callable, so an object with a [toString] member of its own has
    no usable conversion and the literal throws a TypeError; an array
    converts when its elements do. *)
Fixpoint converts (v : jsval) : bool :=
  match v with
  | VObj props => negb (has_own "toString" props)
  | VArr elems => forallb converts elems
  | _ => true
  end.

(** The values for which [ToString] is the text the code produces: they
    convert, and the numbers that reach the text are safe integers. *)
Fixpoint renders (v : jsval) : bool :=
  match v with
  | VNum z => safe_integer z
  | VObj props => negb (has_own "toString" props)
  | VArr elems => forallb renders elems
  | _ => true
  end.

(** The values for which [JSON_stringify] is the text the code produces:
    every number in them is a safe integer. *)
Fixpoint serialises (v : jsval) : bool :=
  match v with
  | VNum z => safe_integer z
  | VArr elems => forallb serialises elems
  | VObj props => forallb (fun kv => serialises (snd kv)) props
  | VPromise _ v => serialises v
  | _ => true
  end.

(** The calls whose request the embedding builds as the code does, and which
    reach [fetch]: identifiers that render, a geometry (an array of arrays by
    its type) whose coordinates render, body members that serialise.  A call
    outside, such as a geometry that is undefined or holds null, throws in
    the template literal before [fetch]; [doWallpaper_any] below follows
    that path. *)
Definition well_formed (op : ClientOp) : bool :=
  match op with
  | CreateSession => true
  | GetAllScenarios sessionID => renders sessionID
  | GetScenario id => renders id
  | MakeScenario sessionID name description =>
      renders sessionID && serialises name && serialises description
  | GetJobStatus jobID => renders jobID
  | DoWallpaper targetCoords patternID scenarioID =>
      forallb (fun coords => renders (index coords 0) && renders (index coords 1))
        targetCoords
      && serialises patternID && serialises scenarioID
  | GetPatterns sessionID => renders sessionID
  end.

(** A geometry whose coordinates convert to text. *)
Definition geometry_converts (targetCoords : list (list jsval)) : bool :=
  forallb (fun coords => converts (index coords 0) && converts (index coords 1))
    targetCoords.

(** The same backend answering every request under the status [code]. *)
Definition with_status (code : Z) (o : FetchOutcome) : FetchOutcome :=
  match o with
  | NetworkFailure reason => NetworkFailure reason
  | Responded r => Responded (mkResponse code (payload r))
  end.

Definition answering_with_status (code : Z) (w : World) : World :=
  mkWorld (fun before rq => with_status code (server w before rq))
    (sent w) (console w) (entropy w) (drawn w).

(** A backend that answers every request with an error status and a JSON
    body. *)
Definition internal_error : list Request -> Request -> FetchOutcome :=
  fun _ _ =>
    Responded (mkResponse 500 (JsonBody (VObj [("detail", VStr "Internal Server Error")]))).

(** The text of a point by the number of its entries. *)
Definition point_text_by_cases (coords : list jsval) : string :=
  match coords with
  | [] => "undefined undefined"
  | [x] => ToString x +:+ " undefined"
  | x :: y :: _ => ToString x +:+ " " +:+ ToString y
  end.

(** A geometry of integer pairs within the safe range. *)
Definition safe_geometry (g : list (Z * Z)) : bool :=
  forallb (fun p => safe_integer (fst p) && safe_integer (snd p)) g.

(** ** The submission on arbitrary arguments *)

(** [doWallpaper] builds its text before it calls [fetch] and outside the
    [catch]: what throws there rejects the promise of the async function and
    nothing else happens.  The definitions below follow lines 63 to 67 for
    any value given as geometry. *)

(** [coords[i]] for any value [coords]. *)
Definition element (coords : jsval) (i : nat) : settled jsval :=
  match coords with
  | VUndefined =>
      Rejected (VError "TypeError"
                  ("Cannot read properties of undefined (reading '"
                   +:+ Number_toString (Z.of_nat i) +:+ "')"))
  | VNull =>
      Rejected (VError "TypeError"
                  ("Cannot read properties of null (reading '"
                   +:+ Number_toString (Z.of_nat i) +:+ "')"))
  | VArr elems => Fulfilled (index elems i)
  | VStr s =>
      Fulfilled (match String.get i s with
                 | Some c => VStr (String c EmptyString)
                 | None => VUndefined
                 end)
  | VObj props => Fulfilled (lookup_prop (Number_toString (Z.of_nat i)) props)
  | _ => Fulfilled VUndefined
  end.

(** The conversion of a template literal, with its throw. *)
Definition template_text (v : jsval) : settled string :=
  if converts v then Fulfilled (ToString v)
  else Rejected (VError "TypeError" "Cannot convert object to primitive value").

(** The callback of [map]: [`${coords[0]} ${coords[1]}`], left to right. *)
Definition point_text_any (coords : jsval) : settled string :=
  match element coords 0 with
  | Rejected e => Rejected e
  | Fulfilled x =>
      match template_text x with
      | Rejected e => Rejected e
      | Fulfilled sx =>
          match element coords 1 with
          | Rejected e => Rejected e
          | Fulfilled y =>
              match template_text y with
              | Rejected e => Rejected e
              | Fulfilled sy => Fulfilled (sx +:+ " " +:+ sy)
              end
          end
      end
  end.

(** [Array.prototype.map] with a callback that may throw: the first throw
    ends it. *)
Fixpoint map_settled {A B} (f : A -> settled B) (l : list A) : settled (list B) :=
  match l with
  | [] => Fulfilled []
  | a :: rest =>
      match f a with
      | Rejected e => Rejected e
      | Fulfilled b =>
          match map_settled f rest with
          | Rejected e => Rejected e
          | Fulfilled bs => Fulfilled (b :: bs)
          end
      end
  end.

Definition doWallpaper_any (targetCoords patternID scenarioID : jsval)
  : M (settled jsval) :=
  match targetCoords with
  | VArr elems =>
      match map_settled point_text_any elems with
      | Rejected e => ret (Rejected e)
      | Fulfilled texts =>
          let targetWKT := "POLYGON((" +:+ join_strings ", " texts +:+ "))" in
          console_log [VStr targetWKT; scenarioID; patternID] >>
          fetch (mkRequest (apiBaseURL +:+ "/wallpaper") "post" json_headers
                   (JSON_stringify (VObj [("scenario_id", scenarioID);
                                          ("target_parcel_wkt", VStr targetWKT);
                                          ("pattern_id", patternID)])))
            >>= then_ (fun response => ret (Response_json response))
            >>= catch_ (fun error => returns (console_log [error]))
      end
  | VUndefined =>
      ret (Rejected (VError "TypeError"
                       "Cannot read properties of undefined (reading 'map')"))
  | VNull =>
      ret (Rejected (VError "TypeError"
                       "Cannot read properties of null (reading 'map')"))
  | _ => ret (Rejected (VError "TypeError" "targetCoords.map is not a function"))
  end.

(** The geometries that get through the template literal: arrays whose
    elements have two readable entries that convert. *)
Definition point_passes (coords : jsval) : bool :=
  match element coords 0, element coords 1 with
  | Fulfilled x, Fulfilled y => converts x && converts y
  | _, _ => false
  end.

Definition geometry_passes (targetCoords : jsval) : bool :=
  match targetCoords with
  | VArr elems => forallb point_passes elems
  | _ => false
  end.

(** * Properties *)

Example ToString_point : ToString (VArr [VNum 0; VNum (-12); VNull; VStr "a"]) = "0,-12,,a".
Proof. reflexivity. Qed.

Example JSON_stringify_escapes :
  JSON_stringify (VStr (dquote +:+ "a" +:+ backslash))
  = Some (dquote +:+ backslash +:+ dquote +:+ "a" +:+ backslash +:+ backslash +:+ dquote).
Proof. reflexivity. Qed.

Example JSON_stringify_scenario :
  JSON_stringify (VObj [("name", VStr "park"); ("description", VUndefined); ("n", VNum 3)])
  = Some ("{" +:+ dquote +:+ "name" +:+ dquote +:+ ":" +:+ dquote +:+ "park" +:+ dquote
          +:+ "," +:+ dquote +:+ "n" +:+ dquote +:+ ":3}").
Proof. reflexivity. Qed.


(** ** The geometry codec *)

Lemma join_text_VStr (s : string) : join_text (VStr s) = s.
Proof. reflexivity. Qed.

Lemma targetWKT_points (g : list (list jsval)) : targetWKT g = points_wkt g.
Proof.
  unfold targetWKT, points_wkt, Array_join.
  rewrite List.map_map. reflexivity.
Qed.

Lemma closed_ring_of_closed_input (p : list jsval) (ps : list (list jsval)) :
  points_wkt (p :: ps ++ [p]) = closed_ring_wkt (p :: ps).
Proof. reflexivity. Qed.

(** ** Running a promise chain *)

(** Every network operation is [fetch] followed by its callbacks; the three
    ways [fetch] and [json()] can go decide the run. *)
Ltac unfold_op :=
  unfold perform, createSession, getAllScenarios, getScenario, makeScenario,
    getJobStatus, doWallpaper, getPatterns, endpoint, prologue, job_request,
    wallpaper_request;
  unfold then_, catch_, returns;
  unfold bind, fetch, ret, console_log, Response_json.

Lemma perform_sends (op : ClientOp) (w : World) :
  sent (snd (perform op w)) = sent w ++ [endpoint op].
Proof.
  destruct op; unfold_op; cbn [sent server console entropy drawn fst snd];
    rewrite ?targetWKT_points;
    match goal with
    | |- context [server w (sent w) ?rq] =>
        destruct (server w (sent w) rq) as [reason | [code [v | msg]]]
    end; cbn [payload sent snd]; try reflexivity.
  destruct (Get v "scenario_id"); reflexivity.
Qed.

Lemma perform_network_failure (op : ClientOp) (w : World) (reason : jsval) :
  server w (sent w) (endpoint op) = NetworkFailure reason ->
  fst (perform op w) = Fulfilled VUndefined
  /\ console (snd (perform op w)) = console w ++ prologue op ++ [[reason]].
Proof.
  destruct op; unfold_op; cbn [sent server console entropy drawn fst snd];
    rewrite ?targetWKT_points; intros ->;
    cbn [sent server console entropy drawn fst snd];
    rewrite ?app_nil_r, <- ?app_assoc; split; reflexivity.
Qed.

Lemma perform_undecodable (op : ClientOp) (w : World) (r : Response) (msg : string) :
  awaits_body op = true ->
  server w (sent w) (endpoint op) = Responded r ->
  payload r = BadBody msg ->
  fst (perform op w) = Fulfilled VUndefined
  /\ console (snd (perform op w))
     = console w ++ prologue op ++ [[VError "SyntaxError" msg]].
Proof.
  destruct op; try discriminate; intros _; unfold_op;
    cbn [sent server console entropy drawn fst snd];
    rewrite ?targetWKT_points; intros -> ->;
    cbn [sent server console entropy drawn fst snd];
    rewrite ?app_nil_r, <- ?app_assoc; split; reflexivity.
Qed.

(** When the backend answers at all, [getJobStatus] settles with undefined
    whatever the body says, and writes nothing to the console. *)
Lemma getJobStatus_responded (jobID : jsval) (w : World) (r : Response) :
  server w (sent w) (job_request jobID) = Responded r ->
  fst (getJobStatus jobID w) = Fulfilled VUndefined
  /\ console (snd (getJobStatus jobID w)) = console w.
Proof.
  unfold_op; cbn [sent server console entropy drawn fst snd]; intros ->.
  destruct r as [code [v | msg]]; split; reflexivity.
Qed.

(** A network operation never rejects unless the body decodes to null and a
    member is read from it; [doWallpaper] reads none. *)
Lemma doWallpaper_fulfils (g : list (list jsval)) (pid sid : jsval) (w : World) :
  exists v, fst (doWallpaper g pid sid w) = Fulfilled v.
Proof.
  unfold_op; cbn [sent server console entropy drawn fst snd].
  match goal with
  | |- context [server w (sent w) ?rq] =>
      destruct (server w (sent w) rq) as [reason | [code [v | msg]]]
  end; cbn [payload fst]; eauto.
Qed.

(** The sibling of [getJobStatus]: [makeScenario] waits for the decoded body
    and then reads its member. *)
Lemma makeScenario_reads_decoded_body (sessionID name description : jsval)
  (w : World) (code : Z) (props : list (string * jsval)) :
  server w (sent w) (endpoint (MakeScenario sessionID name description))
    = Responded (mkResponse code (JsonBody (VObj props))) ->
  fst (makeScenario sessionID name description w)
    = Fulfilled (lookup_prop "scenario_id" props).
Proof.
  unfold_op; cbn [sent server console entropy drawn fst snd]; intros ->.
  reflexivity.
Qed.

(** ** The wallpaper submission *)

(** C1, as the contract states it, fails on the square of its own scenario:
    the geometry does not repeat its first point, and the text that goes out
    is [POLYGON((0 0, 0 1, 1 1, 1 0))], not the closed ring. *)
Lemma doWallpaper_square_ring_open :
  let w := fresh_world (answers (VObj [("job_id", VNum 1)])) sevens in
  last square <> head square
  /\ sent (snd (doWallpaper square (VStr "P1") (VStr "S1") w))
     = [wallpaper_request "POLYGON((0 0, 0 1, 1 1, 1 0))" (VStr "P1") (VStr "S1")]
  /\ closed_ring_wkt square = "POLYGON((0 0, 0 1, 1 1, 1 0, 0 0))"
  /\ targetWKT square <> closed_ring_wkt square.
Proof.
  cbv zeta. split; [discriminate |].
  split; [reflexivity |]. split; [reflexivity |].
  vm_compute. discriminate.
Qed.

(** C1 (amended): the submission writes exactly the points it is given, in
    their order, into [target_parcel_wkt] and appends nothing; the ring that
    goes out is the closed ring of the contract when the caller's geometry
    already ends with its first point. *)
Theorem doWallpaper_encodes_points_as_given (pid sid : jsval) (w : World) :
  (forall g,
     sent (snd (doWallpaper g pid sid w))
     = sent w ++ [wallpaper_request (points_wkt g) pid sid])
  /\ (forall p ps,
        sent (snd (doWallpaper (p :: ps ++ [p]) pid sid w))
        = sent w ++ [wallpaper_request (closed_ring_wkt (p :: ps)) pid sid]).
Proof.
  assert (H : forall g, sent (snd (doWallpaper g pid sid w))
                        = sent w ++ [wallpaper_request (points_wkt g) pid sid]).
  { intros g. apply (perform_sends (DoWallpaper g pid sid) w). }
  split; [exact H |].
  intros p ps. rewrite H, closed_ring_of_closed_input. reflexivity.
Qed.

(** C2, as the contract states it, fails on a two-point geometry: the request
    is transmitted and the promise does not fail with InvalidArgument. *)
Lemma doWallpaper_segment_is_transmitted :
  let w := fresh_world (answers (VObj [("job_id", VNum 1)])) sevens in
  length segment = 2%nat
  /\ sent (snd (doWallpaper segment (VStr "P1") (VStr "S1") w))
     = [wallpaper_request "POLYGON((0 0, 1 1))" (VStr "P1") (VStr "S1")]
  /\ fails_with "InvalidArgument" (fst (doWallpaper segment (VStr "P1") (VStr "S1") w))
     = false.
Proof. cbv zeta. repeat split; reflexivity. Qed.

(** C2 (amended): for a target geometry that is an array of points whose
    coordinates convert to text, whatever the number of its points, so also
    with fewer than three distinct points, the submission validates nothing:
    it does not fail with InvalidArgument, and one POST request to
    [/wallpaper] is transmitted. *)
Theorem doWallpaper_transmits_unvalidated (g : list (list jsval)) (pid sid : jsval)
  (w : World) :
  geometry_converts g = true ->
  (exists rq,
     sent (snd (doWallpaper g pid sid w)) = sent w ++ [rq]
     /\ url rq = apiBaseURL +:+ "/wallpaper"
     /\ method rq = "post")
  /\ fails_with "InvalidArgument" (fst (doWallpaper g pid sid w)) = false.
Proof.
  intros _. split.
  - exists (wallpaper_request (points_wkt g) pid sid).
    split; [apply (perform_sends (DoWallpaper g pid sid) w) |].
    split; reflexivity.
  - destruct (doWallpaper_fulfils g pid sid w) as [v Hv]. rewrite Hv. reflexivity.
Qed.

(** C2 (amended) at the two-point geometry. *)
Lemma doWallpaper_transmits_unvalidated_witness :
  (exists rq,
     sent (snd (doWallpaper segment (VStr "P1") (VStr "S1")
                  (fresh_world (answers (VObj [("job_id", VNum 1)])) sevens)))
     = [] ++ [rq]
     /\ url rq = apiBaseURL +:+ "/wallpaper"
     /\ method rq = "post")
  /\ fails_with "InvalidArgument"
       (fst (doWallpaper segment (VStr "P1") (VStr "S1")
               (fresh_world (answers (VObj [("job_id", VNum 1)])) sevens)))
     = false.
Proof.
  apply (doWallpaper_transmits_unvalidated segment (VStr "P1") (VStr "S1")
           (fresh_world (answers (VObj [("job_id", VNum 1)])) sevens)).
  reflexivity.
Defined.

(** ** Jobs *)

Lemma getWallpaperResults_run (jobID : jsval) (w : World) :
  getWallpaperResults jobID w
  = (Fulfilled (VObj [("forest", VNum (byte_value (entropy w (drawn w))));
                      ("housing", VNum (byte_value (entropy w (drawn w + 1)%nat)));
                      ("grass", VNum (byte_value (entropy w (drawn w + 2)%nat)));
                      ("commercial", VNum (byte_value (entropy w (drawn w + 3)%nat)));
                      ("orchard", VNum (byte_value (entropy w (drawn w + 4)%nat)))]),
     mkWorld (server w) (sent w) (console w) (entropy w) (drawn w + 5)%nat).
Proof.
  unfold getWallpaperResults, bind, getRandomValues, Promise_resolve, ret, index.
  cbn [server sent console entropy drawn List.map seq lookup list_lookup default
       from_option].
  rewrite !Nat.add_0_r, <- !Nat.add_assoc. reflexivity.
Qed.

Lemma getLulcTableForParcel_run (geom : jsval) (w : World) :
  getLulcTableForParcel geom w
  = (Fulfilled (VObj [("forest", VNum (byte_value (entropy w (drawn w))));
                      ("grass", VNum (byte_value (entropy w (drawn w + 1)%nat)));
                      ("housing", VNum (byte_value (entropy w (drawn w + 2)%nat)));
                      ("commercial", VNum (byte_value (entropy w (drawn w + 3)%nat)));
                      ("orchard", VNum (byte_value (entropy w (drawn w + 4)%nat)))]),
     mkWorld (server w) (sent w) (console w) (entropy w) (drawn w + 5)%nat).
Proof.
  unfold getLulcTableForParcel, bind, getRandomValues, Promise_resolve, ret, index.
  cbn [server sent console entropy drawn List.map seq lookup list_lookup default
       from_option].
  rewrite !Nat.add_0_r, <- !Nat.add_assoc. reflexivity.
Qed.

(** C3, as the contract states it, fails on a job that the backend reports
    as running: the promise does not fail with PreconditionFailed, it is
    fulfilled with a table. *)
Lemma getWallpaperResults_of_running_job :
  let w := fresh_world (answers (VObj [("status", VStr "running")])) sevens in
  backend_status w (VStr "J1") = Some (VStr "running")
  /\ fails_with "PreconditionFailed" (fst (getWallpaperResults (VStr "J1") w)) = false
  /\ fst (getWallpaperResults (VStr "J1") w)
     = Fulfilled (VObj [("forest", VNum 7); ("housing", VNum 7); ("grass", VNum 7);
                        ("commercial", VNum 7); ("orchard", VNum 7)]).
Proof. cbv zeta. repeat split; reflexivity. Qed.

(** C3 (amended): the result operation checks no status.  For every job id
    and every state of the backend it sends nothing, and is fulfilled with a
    complete table of the five categories, each value one random byte; it
    never fails with PreconditionFailed. *)
Theorem getWallpaperResults_ignores_status (jobID : jsval) (w : World) :
  sent (snd (getWallpaperResults jobID w)) = sent w
  /\ fst (getWallpaperResults jobID w)
     = Fulfilled (VObj [("forest", VNum (byte_value (entropy w (drawn w))));
                        ("housing", VNum (byte_value (entropy w (drawn w + 1)%nat)));
                        ("grass", VNum (byte_value (entropy w (drawn w + 2)%nat)));
                        ("commercial", VNum (byte_value (entropy w (drawn w + 3)%nat)));
                        ("orchard", VNum (byte_value (entropy w (drawn w + 4)%nat)))])
  /\ fails_with "PreconditionFailed" (fst (getWallpaperResults jobID w)) = false.
Proof. rewrite getWallpaperResults_run. repeat split; reflexivity. Qed.

(** C4: the backend answers [GET /job/J1] with the body [{status:
    "succeeded"}], and [getJobStatus] settles with undefined instead of the
    status string. *)
Theorem getJobStatus_loses_status :
  let w := fresh_world (answers (VObj [("status", VStr "succeeded")])) sevens in
  backend_status w (VStr "J1") = Some (VStr "succeeded")
  /\ sent (snd (getJobStatus (VStr "J1") w))
     = [mkRequest "http://127.0.0.1:8000/job/J1" "get" [] None]
  /\ fst (getJobStatus (VStr "J1") w) = Fulfilled VUndefined
  /\ fst (getJobStatus (VStr "J1") w) <> Fulfilled (VStr "succeeded").
Proof. cbv zeta. repeat split; try reflexivity. discriminate. Qed.

(** ** Failures *)

Lemma perform_decoded_body (op : ClientOp) (w : World) (code : Z) (v : jsval) :
  returns_body op = true ->
  server w (sent w) (endpoint op) = Responded (mkResponse code (JsonBody v)) ->
  fst (perform op w) = Fulfilled v
  /\ console (snd (perform op w)) = console w ++ prologue op.
Proof.
  destruct op; try discriminate; intros _; unfold_op;
    cbn [sent server console entropy drawn fst snd];
    rewrite ?targetWKT_points; intros ->;
    cbn [payload sent server console entropy drawn fst snd];
    rewrite ?app_nil_r; split; reflexivity.
Qed.

(** No operation reads the status of a response. *)
Lemma perform_status_blind (op : ClientOp) (w : World) (code : Z) :
  fst (perform op (answering_with_status code w)) = fst (perform op w)
  /\ console (snd (perform op (answering_with_status code w)))
     = console (snd (perform op w)).
Proof.
  destruct op; unfold_op; unfold answering_with_status, with_status;
    cbn [sent server console entropy drawn fst snd];
    rewrite ?targetWKT_points;
    match goal with
    | |- context [server w (sent w) ?rq] =>
        destruct (server w (sent w) rq) as [reason | [code0 [v | msg]]]
    end; cbn [payload sent server console entropy drawn fst snd];
    try (split; reflexivity);
    destruct (Get v "scenario_id"); split; reflexivity.
Qed.

(** C5, as the contract states it, fails on [createSession]: with the network
    down the error goes to the console only and the result is undefined, the
    same result as for an undecodable response; an answer with status 500 and
    a JSON body is returned as if the call had succeeded, with nothing on the
    console; and [makeScenario] gives for a failed call the result it gives
    for a call that the backend answered. *)
Lemma createSession_swallows_failure :
  let w := fresh_world network_down sevens in
  fst (createSession w) = Fulfilled VUndefined
  /\ console (snd (createSession w)) = [[VError "TypeError" "Failed to fetch"]]
  /\ fst (createSession (fresh_world garbled sevens)) = fst (createSession w)
  /\ fst (createSession (fresh_world internal_error sevens))
     = Fulfilled (VObj [("detail", VStr "Internal Server Error")])
  /\ console (snd (createSession (fresh_world internal_error sevens))) = []
  /\ fst (makeScenario (VStr "U1") (VStr "park") VUndefined
            (fresh_world (answers (VObj [])) sevens))
     = fst (makeScenario (VStr "U1") (VStr "park") VUndefined w).
Proof. cbv zeta. repeat split; reflexivity. Qed.

(** C5 (amended): for every network operation called with well-formed
    arguments, no failure shows in the result.  When the call itself fails
    the operation writes the reason to the console and is fulfilled with
    undefined; so does every operation that waits for the decoded body when
    the body cannot be decoded.  An error status is no failure to the code:
    the operations that return the body return the decoded body of an answer
    under any status and log nothing, and no operation's result or console
    output changes with the status of the answer. *)
Theorem failed_call_is_logged_and_yields_undefined (op : ClientOp) (w : World) :
  well_formed op = true ->
  (forall reason,
     server w (sent w) (endpoint op) = NetworkFailure reason ->
     fst (perform op w) = Fulfilled VUndefined
     /\ console (snd (perform op w)) = console w ++ prologue op ++ [[reason]])
  /\ (forall r msg,
        awaits_body op = true ->
        server w (sent w) (endpoint op) = Responded r ->
        payload r = BadBody msg ->
        fst (perform op w) = Fulfilled VUndefined
        /\ console (snd (perform op w))
           = console w ++ prologue op ++ [[VError "SyntaxError" msg]])
  /\ (forall code v,
        returns_body op = true ->
        server w (sent w) (endpoint op) = Responded (mkResponse code (JsonBody v)) ->
        fst (perform op w) = Fulfilled v
        /\ console (snd (perform op w)) = console w ++ prologue op)
  /\ (forall code,
        fst (perform op (answering_with_status code w)) = fst (perform op w)
        /\ console (snd (perform op (answering_with_status code w)))
           = console (snd (perform op w))).
Proof.
  intros _. split; [| split; [| split]].
  - intros reason. apply perform_network_failure.
  - intros r msg. apply perform_undecodable.
  - intros code v. apply perform_decoded_body.
  - intros code. apply perform_status_blind.
Qed.

(** C5 (amended) at [doWallpaper] with the network down, at [createSession]
    with a body that is not JSON, and at [getPatterns] answered with status
    500 and a JSON body. *)
Lemma failed_call_is_logged_and_yields_undefined_witness :
  (fst (perform (DoWallpaper square (VStr "P1") (VStr "S1")) (fresh_world network_down sevens))
   = Fulfilled VUndefined
   /\ console (snd (perform (DoWallpaper square (VStr "P1") (VStr "S1"))
                      (fresh_world network_down sevens)))
      = [] ++ prologue (DoWallpaper square (VStr "P1") (VStr "S1"))
           ++ [[VError "TypeError" "Failed to fetch"]])
  /\ (fst (perform CreateSession (fresh_world garbled sevens)) = Fulfilled VUndefined
      /\ console (snd (perform CreateSession (fresh_world garbled sevens)))
         = [] ++ prologue CreateSession
              ++ [[VError "SyntaxError" "Unexpected token < in JSON at position 0"]])
  /\ (fst (perform (GetPatterns (VStr "U1")) (fresh_world internal_error sevens))
      = Fulfilled (VObj [("detail", VStr "Internal Server Error")])
      /\ console (snd (perform (GetPatterns (VStr "U1")) (fresh_world internal_error sevens)))
         = [] ++ prologue (GetPatterns (VStr "U1"))).
Proof.
  split; [| split].
  - apply (proj1 (failed_call_is_logged_and_yields_undefined
                    (DoWallpaper square (VStr "P1") (VStr "S1"))
                    (fresh_world network_down sevens) eq_refl)
             (VError "TypeError" "Failed to fetch")).
    reflexivity.
  - apply (proj1 (proj2 (failed_call_is_logged_and_yields_undefined CreateSession
                           (fresh_world garbled sevens) eq_refl))
             (mkResponse 200 (BadBody "Unexpected token < in JSON at position 0"))
             "Unexpected token < in JSON at position 0");
      reflexivity.
  - apply (proj1 (proj2 (proj2 (failed_call_is_logged_and_yields_undefined
                                  (GetPatterns (VStr "U1"))
                                  (fresh_world internal_error sevens) eq_refl)))
             500 (VObj [("detail", VStr "Internal Server Error")]));
      reflexivity.
Defined.

(** ** Pattern identifiers *)

Lemma byte_value_range (b : Byte.byte) : 0 <= byte_value b <= 255.
Proof. unfold byte_value. pose proof (Byte.to_N_bounded b). lia. Qed.

Lemma createPattern_run (geom name : jsval) (w : World) :
  createPattern geom name w
  = (Fulfilled (VNum (byte_value (entropy w (drawn w)))),
     mkWorld (server w) (sent w)
       (console w ++ [[VStr ("create pattern " +:+ ToString name
                             +:+ " with geometry " +:+ ToString geom)]])
       (entropy w) (drawn w + 1)%nat).
Proof.
  unfold createPattern, bind, console_log, getRandomValues, Promise_resolve, ret, index.
  cbn [server sent console entropy drawn List.map seq lookup list_lookup default
       from_option].
  rewrite Nat.add_0_r. reflexivity.
Qed.

Lemma createPattern_each_cons (geom name : jsval) (rest : list (jsval * jsval))
  (w : World) :
  fst (createPattern_each ((geom, name) :: rest) w)
  = fst (createPattern geom name w)
    :: fst (createPattern_each rest (snd (createPattern geom name w))).
Proof.
  cbn [createPattern_each]. unfold bind at 1.
  destruct (createPattern geom name w) as [id w1]. unfold bind. cbn [fst snd].
  destruct (createPattern_each rest w1) as [ids w2]. reflexivity.
Qed.

Lemma createPattern_each_spec (calls : list (jsval * jsval)) :
  forall w,
    length (fst (createPattern_each calls w)) = length calls
    /\ fst (createPattern_each calls w) ⊆ one_byte_ids.
Proof.
  induction calls as [| [geom name] rest IH]; intros w.
  - split; [reflexivity |]. intros x Hx. inversion Hx.
  - rewrite createPattern_each_cons, createPattern_run. cbn [fst snd].
    match goal with
    | |- context [createPattern_each rest ?w1] => destruct (IH w1) as [Hlen Hsub]
    end.
    split.
    + cbn [length]. congruence.
    + intros x Hx. apply elem_of_cons in Hx as [-> | Hx]; [| auto].
      unfold one_byte_ids. apply list_elem_of_fmap.
      eexists; split; [reflexivity |].
      apply elem_of_seqZ. pose proof (byte_value_range (entropy w (drawn w))). lia.
Qed.

(** C6: two successive calls of [createPattern] with the same geometry and
    name, when the random source gives the byte 7 twice, return the id 7
    twice. *)
Theorem createPattern_twice_same_id :
  let geom := VArr (List.map VArr square) in
  let w := fresh_world network_down sevens in
  fst (createPattern_each [(geom, VStr "park"); (geom, VStr "park")] w)
  = [Fulfilled (VNum 7); Fulfilled (VNum 7)].
Proof. reflexivity. Qed.

(** C9: the id that [createPattern] returns is an integer from 0 to 255, one
    random byte; so among the ids of any 257 calls or more, two are equal. *)
Theorem createPattern_id_is_one_byte :
  (forall geom name w,
     exists z, fst (createPattern geom name w) = Fulfilled (VNum z) /\ 0 <= z <= 255)
  /\ (forall calls w,
        (257 <= length calls)%nat ->
        exists i j id,
          (i < j)%nat
          /\ fst (createPattern_each calls w) !! i = Some id
          /\ fst (createPattern_each calls w) !! j = Some id).
Proof.
  split.
  - intros geom name w. rewrite createPattern_run.
    eexists; split; [reflexivity | apply byte_value_range].
  - intros calls w Hlen.
    destruct (createPattern_each_spec calls w) as [Hn Hsub].
    apply (list_pigeonhole _ one_byte_ids); [exact Hsub |].
    rewrite Hn. unfold one_byte_ids. rewrite length_fmap, length_seqZ. lia.
Qed.

(** The pigeonhole of C9 at 257 calls on a source of sevens. *)
Lemma createPattern_id_is_one_byte_witness :
  exists i j id,
    (i < j)%nat
    /\ fst (createPattern_each (replicate 257 (VNull, VStr "park"))
              (fresh_world network_down sevens)) !! i = Some id
    /\ fst (createPattern_each (replicate 257 (VNull, VStr "park"))
              (fresh_world network_down sevens)) !! j = Some id.
Proof.
  apply (proj2 createPattern_id_is_one_byte).
  exact (le_n 257).
Defined.

(** ** Land-use tables and codes *)

Lemma registry_names_are_categories (w : World) :
  registry_names (fst (getLulcCodes w)) = category_names.
Proof.
  unfold getLulcCodes, Promise_resolve, ret, registry_names, category_names.
  cbn [fst omap list_omap name_of snd list_to_set]. set_solver.
Qed.

(** C7: every key of a table returned by [getWallpaperResults] or by
    [getLulcTableForParcel] is one of the category names that [getLulcCodes]
    maps the codes to: forest, grass, housing, commercial, orchard. *)
Theorem lulc_table_keys_in_registry (arg : jsval) (w w' : World) :
  exists results baseline,
    fst (getWallpaperResults arg w) = Fulfilled (VObj results)
    /\ fst (getLulcTableForParcel arg w) = Fulfilled (VObj baseline)
    /\ key_set results ⊆ registry_names (fst (getLulcCodes w'))
    /\ key_set baseline ⊆ registry_names (fst (getLulcCodes w'))
    /\ registry_names (fst (getLulcCodes w')) = category_names.
Proof.
  rewrite getWallpaperResults_run, getLulcTableForParcel_run.
  do 2 eexists. split; [reflexivity |]. split; [reflexivity |].
  rewrite registry_names_are_categories.
  unfold key_set, category_names. cbn [List.map fst list_to_set].
  repeat split; set_solver.
Qed.

(** C8: [getLulcCodes] returns the same mapping on every call, 1 to forest,
    2 to grass, 3 to housing, 4 to commercial, 5 to orchard, and leaves the
    world as it was; the results of any two calls are equal. *)
Theorem getLulcCodes_idempotent (w w' : World) :
  fst (getLulcCodes w)
  = Fulfilled (VObj [("1", VStr "forest"); ("2", VStr "grass"); ("3", VStr "housing");
                     ("4", VStr "commercial"); ("5", VStr "orchard")])
  /\ snd (getLulcCodes w) = w
  /\ fst (getLulcCodes w) = fst (getLulcCodes w')
  /\ fst (getLulcCodes (snd (getLulcCodes w))) = fst (getLulcCodes w).
Proof. repeat split; reflexivity. Qed.

(** C10: the job id is never read.  Two calls of [getWallpaperResults] with
    different job ids on the same world, hence the same random source, give
    the same table and leave the same world. *)
Theorem getWallpaperResults_independent_of_job (jobID jobID' : jsval) (w : World) :
  getWallpaperResults jobID w = getWallpaperResults jobID' w.
Proof. rewrite !getWallpaperResults_run. reflexivity. Qed.

(** * Further properties of the request layer *)

(** ** What every network operation does *)

Ltac split_outcome w :=
  match goal with
  | |- context [server w (sent w) ?rq] =>
      destruct (server w (sent w) rq) as [reason | [code [v | msg]]]
  end.

Ltac run_op w :=
  unfold_op; cbn [sent server console entropy drawn fst snd];
  rewrite ?targetWKT_points.

Lemma perform_fulfils (op : ClientOp) (w : World) :
  exists v, fst (perform op w) = Fulfilled v.
Proof.
  destruct op; run_op w; split_outcome w; cbn [payload fst snd]; eauto;
    destruct v; cbn [Get fst]; eauto.
Qed.

(** X1: whatever the backend does, the promise of a network operation called
    with well-formed arguments is fulfilled: awaiting it does not throw. *)
Theorem network_operation_never_rejects (op : ClientOp) (w : World) :
  well_formed op = true ->
  exists v, fst (perform op w) = Fulfilled v.
Proof. intros _. apply perform_fulfils. Qed.

(** X1 at [makeScenario] answered with null, where the member read throws
    inside the chain. *)
Lemma network_operation_never_rejects_witness :
  exists v,
    fst (perform (MakeScenario (VStr "U1") (VStr "park") VUndefined)
           (fresh_world (answers VNull) sevens))
    = Fulfilled v.
Proof.
  apply (network_operation_never_rejects
           (MakeScenario (VStr "U1") (VStr "park") VUndefined)
           (fresh_world (answers VNull) sevens)).
  reflexivity.
Defined.

Lemma perform_frame (op : ClientOp) (w : World) :
  sent (snd (perform op w)) = sent w ++ [endpoint op]
  /\ server (snd (perform op w)) = server w
  /\ entropy (snd (perform op w)) = entropy w
  /\ drawn (snd (perform op w)) = drawn w
  /\ exists late,
       console (snd (perform op w)) = console w ++ prologue op ++ late
       /\ (length late <= 1)%nat.
Proof.
  destruct op; run_op w; split_outcome w; cbn [payload fst snd];
    try (destruct v; cbn [Get]);
    cbn [sent server console entropy drawn fst snd];
    (repeat split; try reflexivity);
    first [ exists []; rewrite ?app_nil_r; split; [reflexivity | cbn; lia]
          | eexists [_]; rewrite <- ?app_assoc; split; [reflexivity | cbn; lia] ].
Qed.

(** X2: a network operation called with well-formed arguments hands one
    request to [fetch], the one of its endpoint, whether the call succeeds or
    not; it leaves the backend and the random source as they were, and writes
    at most one line to the console after what it logs before the call. *)
Theorem network_operation_frame (op : ClientOp) (w : World) :
  well_formed op = true ->
  sent (snd (perform op w)) = sent w ++ [endpoint op]
  /\ server (snd (perform op w)) = server w
  /\ entropy (snd (perform op w)) = entropy w
  /\ drawn (snd (perform op w)) = drawn w
  /\ exists late,
       console (snd (perform op w)) = console w ++ prologue op ++ late
       /\ (length late <= 1)%nat.
Proof. intros _. apply perform_frame. Qed.

(** X2 at [doWallpaper] on the square with the network down. *)
Lemma network_operation_frame_witness :
  sent (snd (perform (DoWallpaper square (VStr "P1") (VStr "S1"))
               (fresh_world network_down sevens)))
  = [] ++ [endpoint (DoWallpaper square (VStr "P1") (VStr "S1"))]
  /\ server (snd (perform (DoWallpaper square (VStr "P1") (VStr "S1"))
                    (fresh_world network_down sevens)))
     = server (fresh_world network_down sevens)
  /\ entropy (snd (perform (DoWallpaper square (VStr "P1") (VStr "S1"))
                     (fresh_world network_down sevens)))
     = entropy (fresh_world network_down sevens)
  /\ drawn (snd (perform (DoWallpaper square (VStr "P1") (VStr "S1"))
                   (fresh_world network_down sevens)))
     = drawn (fresh_world network_down sevens)
  /\ exists late,
       console (snd (perform (DoWallpaper square (VStr "P1") (VStr "S1"))
                       (fresh_world network_down sevens)))
       = [] ++ prologue (DoWallpaper square (VStr "P1") (VStr "S1")) ++ late
       /\ (length late <= 1)%nat.
Proof.
  apply (network_operation_frame (DoWallpaper square (VStr "P1") (VStr "S1"))
           (fresh_world network_down sevens)).
  reflexivity.
Defined.

(** X3: the operations that return the body return it for any HTTP status: an
    answer with status 404 or 500 and a JSON body is taken as the result, and
    nothing is logged for it. *)
Theorem decoded_body_is_the_result (op : ClientOp) (w : World) (code : Z) (v : jsval) :
  returns_body op = true ->
  server w (sent w) (endpoint op) = Responded (mkResponse code (JsonBody v)) ->
  fst (perform op w) = Fulfilled v
  /\ console (snd (perform op w)) = console w ++ prologue op.
Proof.
  destruct op; try discriminate; intros _; run_op w; intros ->;
    cbn [payload sent server console entropy drawn fst snd];
    rewrite ?app_nil_r; split; reflexivity.
Qed.

Lemma decoded_body_is_the_result_witness :
  fst (perform (GetScenario (VNum 4))
         (fresh_world (fun _ _ => Responded (mkResponse 500 (JsonBody (VStr "oops")))) sevens))
  = Fulfilled (VStr "oops")
  /\ console (snd (perform (GetScenario (VNum 4))
         (fresh_world (fun _ _ => Responded (mkResponse 500 (JsonBody (VStr "oops")))) sevens)))
     = [] ++ prologue (GetScenario (VNum 4)).
Proof.
  apply (decoded_body_is_the_result (GetScenario (VNum 4))
           (fresh_world (fun _ _ => Responded (mkResponse 500 (JsonBody (VStr "oops")))) sevens)
           500 (VStr "oops")); reflexivity.
Defined.

(** X4: [makeScenario] returns the [scenario_id] member of a decoded object,
    undefined when the object has none; a body that decodes to a number, a
    string, a boolean or an array gives undefined without a word on the
    console; a body that decodes to null gives undefined and a TypeError on
    the console. *)
Theorem makeScenario_on_decoded_body (sessionID name description : jsval) (w : World)
  (code : Z) (v : jsval) :
  server w (sent w) (endpoint (MakeScenario sessionID name description))
    = Responded (mkResponse code (JsonBody v)) ->
  match v with
  | VObj props =>
      fst (makeScenario sessionID name description w)
        = Fulfilled (lookup_prop "scenario_id" props)
      /\ console (snd (makeScenario sessionID name description w)) = console w
  | VNull | VUndefined =>
      fst (makeScenario sessionID name description w) = Fulfilled VUndefined
      /\ exists message,
           console (snd (makeScenario sessionID name description w))
           = console w ++ [[VError "TypeError" message]]
  | _ =>
      fst (makeScenario sessionID name description w) = Fulfilled VUndefined
      /\ console (snd (makeScenario sessionID name description w)) = console w
  end.
Proof.
  run_op w; intros ->; destruct v;
    cbn [payload Get sent server console entropy drawn fst snd]; eauto.
Qed.

Lemma makeScenario_on_decoded_body_witness :
  fst (makeScenario (VStr "U1") (VStr "park") VUndefined
         (fresh_world (answers (VObj [("scenario_id", VNum 12)])) sevens))
  = Fulfilled (lookup_prop "scenario_id" [("scenario_id", VNum 12)])
  /\ console (snd (makeScenario (VStr "U1") (VStr "park") VUndefined
         (fresh_world (answers (VObj [("scenario_id", VNum 12)])) sevens)))
     = [].
Proof.
  apply (makeScenario_on_decoded_body (VStr "U1") (VStr "park") VUndefined
           (fresh_world (answers (VObj [("scenario_id", VNum 12)])) sevens)
           200 (VObj [("scenario_id", VNum 12)])).
  reflexivity.
Defined.

(** X5: once the backend answers, [getJobStatus] gives undefined for every
    status code and every body, and logs nothing, also when the body cannot
    be decoded. *)
Theorem getJobStatus_blind_to_response (jobID : jsval) (w : World) (r : Response) :
  server w (sent w) (job_request jobID) = Responded r ->
  fst (getJobStatus jobID w) = Fulfilled VUndefined
  /\ console (snd (getJobStatus jobID w)) = console w
  /\ sent (snd (getJobStatus jobID w)) = sent w ++ [job_request jobID].
Proof.
  intros H. destruct (getJobStatus_responded jobID w r H) as [Hres Hlog].
  repeat split; [exact Hres | exact Hlog |].
  apply (perform_sends (GetJobStatus jobID) w).
Qed.

Lemma getJobStatus_blind_to_response_witness :
  fst (getJobStatus (VStr "J1") (fresh_world garbled sevens)) = Fulfilled VUndefined
  /\ console (snd (getJobStatus (VStr "J1") (fresh_world garbled sevens))) = []
  /\ sent (snd (getJobStatus (VStr "J1") (fresh_world garbled sevens)))
     = [] ++ [job_request (VStr "J1")].
Proof.
  apply (getJobStatus_blind_to_response (VStr "J1") (fresh_world garbled sevens)
           (mkResponse 200 (BadBody "Unexpected token < in JSON at position 0"))).
  reflexivity.
Defined.

(** X6: an identifier reaches the URL as its text only: two identifiers that
    render and have the same text, such as the number 5 and the string 5,
    make the same call. *)
Theorem identifier_counts_as_text (a b : jsval) (w : World) :
  renders a = true -> renders b = true ->
  ToString a = ToString b ->
  getAllScenarios a w = getAllScenarios b w
  /\ getScenario a w = getScenario b w
  /\ getJobStatus a w = getJobStatus b w
  /\ getPatterns a w = getPatterns b w
  /\ forall name description,
       makeScenario a name description w = makeScenario b name description w.
Proof.
  intros _ _ H.
  unfold getAllScenarios, getScenario, getJobStatus, getPatterns, makeScenario.
  rewrite H. repeat split; reflexivity.
Qed.

(** X6 at the number 5 and the string 5. *)
Lemma identifier_counts_as_text_witness :
  getAllScenarios (VNum 5) (fresh_world garbled sevens)
    = getAllScenarios (VStr "5") (fresh_world garbled sevens)
  /\ getScenario (VNum 5) (fresh_world garbled sevens)
     = getScenario (VStr "5") (fresh_world garbled sevens)
  /\ getJobStatus (VNum 5) (fresh_world garbled sevens)
     = getJobStatus (VStr "5") (fresh_world garbled sevens)
  /\ getPatterns (VNum 5) (fresh_world garbled sevens)
     = getPatterns (VStr "5") (fresh_world garbled sevens)
  /\ forall name description,
       makeScenario (VNum 5) name description (fresh_world garbled sevens)
       = makeScenario (VStr "5") name description (fresh_world garbled sevens).
Proof.
  apply (identifier_counts_as_text (VNum 5) (VStr "5") (fresh_world garbled sevens));
    reflexivity.
Defined.

(** X7: a scenario made without a description, or without a name, sends a body
    from which that member is absent, not one where it is null. *)
Theorem makeScenario_leaves_out_undefined (sessionID name : jsval) (w : World) :
  sent (snd (makeScenario sessionID name VUndefined w))
  = sent w ++ [mkRequest (apiBaseURL +:+ "/scenario/" +:+ ToString sessionID) "post"
                 json_headers (JSON_stringify (VObj [("name", name)]))]
  /\ sent (snd (makeScenario sessionID VUndefined VUndefined w))
     = sent w ++ [mkRequest (apiBaseURL +:+ "/scenario/" +:+ ToString sessionID) "post"
                    json_headers (Some "{}")]
  /\ sent (snd (makeScenario sessionID name VNull w))
     = sent w ++ [mkRequest (apiBaseURL +:+ "/scenario/" +:+ ToString sessionID) "post"
                    json_headers
                    (JSON_stringify (VObj [("name", name); ("description", VNull)]))].
Proof.
  split; [| split].
  - pose proof (perform_sends (MakeScenario sessionID name VUndefined) w) as H.
    cbn [perform] in H. rewrite H.
    cbn [endpoint JSON_stringify]. destruct (JSON_stringify name); reflexivity.
  - apply (perform_sends (MakeScenario sessionID VUndefined VUndefined) w).
  - apply (perform_sends (MakeScenario sessionID name VNull) w).
Qed.

(** ** Calls in sequence *)

Lemma perform_all_cons (op : ClientOp) (rest : list ClientOp) (w : World) :
  perform_all (op :: rest) w
  = (fst (perform op w) :: fst (perform_all rest (snd (perform op w))),
     snd (perform_all rest (snd (perform op w)))).
Proof.
  cbn [perform_all]. unfold bind at 1.
  destruct (perform op w) as [r w1]. unfold bind. cbn [fst snd].
  destruct (perform_all rest w1) as [rs w2]. reflexivity.
Qed.

Lemma perform_all_run (ops : list ClientOp) :
  forall w,
    sent (snd (perform_all ops w)) = sent w ++ List.map endpoint ops
    /\ length (fst (perform_all ops w)) = length ops
    /\ Forall (fun r => exists v, r = Fulfilled v) (fst (perform_all ops w))
    /\ drawn (snd (perform_all ops w)) = drawn w.
Proof.
  induction ops as [| op rest IH]; intros w.
  - cbn. rewrite app_nil_r. repeat split. constructor.
  - rewrite perform_all_cons. cbn [fst snd].
    destruct (IH (snd (perform op w))) as (Hsent & Hlen & Hall & Hdrawn).
    destruct (perform_frame op w) as (Hs & _ & _ & Hd & _).
    repeat split.
    + rewrite Hsent, Hs, <- app_assoc. reflexivity.
    + cbn [length]. congruence.
    + constructor; [apply perform_fulfils | exact Hall].
    + congruence.
Qed.

(** X8: operations with well-formed arguments, awaited one after the other,
    hand their requests to [fetch] in that order, one each, and every one of
    them settles fulfilled; none touches the random source. *)
Theorem requests_go_out_in_call_order (ops : list ClientOp) (w : World) :
  forallb well_formed ops = true ->
  sent (snd (perform_all ops w)) = sent w ++ List.map endpoint ops
  /\ length (fst (perform_all ops w)) = length ops
  /\ Forall (fun r => exists v, r = Fulfilled v) (fst (perform_all ops w))
  /\ drawn (snd (perform_all ops w)) = drawn w.
Proof. intros _. apply perform_all_run. Qed.

(** X8 at a session, a scenario and a submission sent to a backend that is
    down. *)
Lemma requests_go_out_in_call_order_witness :
  sent (snd (perform_all [CreateSession;
                          MakeScenario (VStr "U1") (VStr "park") VUndefined;
                          DoWallpaper square (VStr "P1") (VNum 1)]
               (fresh_world network_down sevens)))
  = [] ++ List.map endpoint [CreateSession;
                             MakeScenario (VStr "U1") (VStr "park") VUndefined;
                             DoWallpaper square (VStr "P1") (VNum 1)]
  /\ length (fst (perform_all [CreateSession;
                               MakeScenario (VStr "U1") (VStr "park") VUndefined;
                               DoWallpaper square (VStr "P1") (VNum 1)]
                    (fresh_world network_down sevens)))
     = length [CreateSession;
               MakeScenario (VStr "U1") (VStr "park") VUndefined;
               DoWallpaper square (VStr "P1") (VNum 1)]
  /\ Forall (fun r => exists v, r = Fulfilled v)
       (fst (perform_all [CreateSession;
                          MakeScenario (VStr "U1") (VStr "park") VUndefined;
                          DoWallpaper square (VStr "P1") (VNum 1)]
               (fresh_world network_down sevens)))
  /\ drawn (snd (perform_all [CreateSession;
                              MakeScenario (VStr "U1") (VStr "park") VUndefined;
                              DoWallpaper square (VStr "P1") (VNum 1)]
                   (fresh_world network_down sevens)))
     = drawn (fresh_world network_down sevens).
Proof.
  apply (requests_go_out_in_call_order
           [CreateSession;
            MakeScenario (VStr "U1") (VStr "park") VUndefined;
            DoWallpaper square (VStr "P1") (VNum 1)]
           (fresh_world network_down sevens)).
  reflexivity.
Defined.

(** ** The operations that stay in the browser *)


(** ** The mocked tables *)

(** X10: each of the five categories has an entry in both mocked tables, and
    the
    entry is an integer from 0 to 255; the key set of either table is the
    whole set of category names. *)
Theorem lulc_tables_are_complete (arg : jsval) (w : World) (k : string) :
  k ∈ category_names ->
  exists results baseline z z',
    fst (getWallpaperResults arg w) = Fulfilled (VObj results)
    /\ fst (getLulcTableForParcel arg w) = Fulfilled (VObj baseline)
    /\ key_set results = category_names
    /\ key_set baseline = category_names
    /\ lookup_prop k results = VNum z /\ 0 <= z <= 255
    /\ lookup_prop k baseline = VNum z' /\ 0 <= z' <= 255.
Proof.
  intros Hk. rewrite getWallpaperResults_run, getLulcTableForParcel_run.
  cbn [fst]. unfold category_names in Hk.
  rewrite !elem_of_union, !elem_of_singleton in Hk.
  assert (Hcases : k = "forest" \/ k = "grass" \/ k = "housing"
                   \/ k = "commercial" \/ k = "orchard") by tauto.
  clear Hk.
  destruct Hcases as [-> | [-> | [-> | [-> | ->]]]];
    do 4 eexists;
    (split; [reflexivity |]); (split; [reflexivity |]);
    (split; [unfold key_set, category_names; cbn [List.map fst list_to_set];
             set_solver |]);
    (split; [unfold key_set, category_names; cbn [List.map fst list_to_set];
             set_solver |]);
    cbn [lookup_prop String.eqb Ascii.eqb Bool.eqb];
    (split; [reflexivity |]); (split; [apply byte_value_range |]);
    (split; [reflexivity | apply byte_value_range]).
Qed.

Lemma lulc_tables_are_complete_witness :
  exists results baseline z z',
    fst (getWallpaperResults (VStr "J1") (fresh_world garbled sevens))
      = Fulfilled (VObj results)
    /\ fst (getLulcTableForParcel (VStr "J1") (fresh_world garbled sevens))
       = Fulfilled (VObj baseline)
    /\ key_set results = category_names
    /\ key_set baseline = category_names
    /\ lookup_prop "grass" results = VNum z /\ 0 <= z <= 255
    /\ lookup_prop "grass" baseline = VNum z' /\ 0 <= z' <= 255.
Proof.
  apply (lulc_tables_are_complete (VStr "J1") (fresh_world garbled sevens) "grass").
  unfold category_names. rewrite !elem_of_union, !elem_of_singleton.
  do 3 left; right; reflexivity.
Defined.

(** X11: from the same state of the random source the two mocks agree on
    forest,
    commercial and orchard and exchange housing and grass: the draws follow
    the order of the members in each object literal. *)
Theorem mocked_tables_exchange_two_columns (jobID geom : jsval) (w : World) :
  exists results baseline,
    fst (getWallpaperResults jobID w) = Fulfilled (VObj results)
    /\ fst (getLulcTableForParcel geom w) = Fulfilled (VObj baseline)
    /\ lookup_prop "forest" results = lookup_prop "forest" baseline
    /\ lookup_prop "commercial" results = lookup_prop "commercial" baseline
    /\ lookup_prop "orchard" results = lookup_prop "orchard" baseline
    /\ lookup_prop "housing" results = lookup_prop "grass" baseline
    /\ lookup_prop "grass" results = lookup_prop "housing" baseline.
Proof.
  rewrite getWallpaperResults_run, getLulcTableForParcel_run.
  do 2 eexists. repeat split; reflexivity.
Qed.

(** ** More on pattern identifiers *)

Lemma next_bytes_S (w : World) (n : nat) :
  next_bytes w (S n)
  = entropy w (drawn w)
    :: next_bytes (mkWorld (server w) (sent w) (console w) (entropy w) (drawn w + 1)%nat) n.
Proof.
  unfold next_bytes. cbn [seq List.map entropy drawn].
  rewrite Nat.add_0_r. f_equal.
  rewrite <- seq_shift, List.map_map.
  apply List.map_ext. intros i. f_equal. lia.
Qed.

Lemma createPattern_each_run (calls : list (jsval * jsval)) :
  forall w,
    createPattern_each calls w
    = (id_of_byte <$> next_bytes w (length calls),
       mkWorld (server w) (sent w) (console w ++ List.map pattern_log calls)
         (entropy w) (drawn w + length calls)%nat).
Proof.
  induction calls as [| [geom name] rest IH]; intros w.
  - destruct w. cbn. rewrite app_nil_r, Nat.add_0_r. reflexivity.
  - cbn [createPattern_each]. unfold bind at 1. rewrite createPattern_run.
    unfold bind at 1. rewrite IH. cbn [ret server sent console entropy drawn].
    cbn [length]. rewrite next_bytes_S.
    cbn [fmap list_fmap List.map]. unfold pattern_log at 2. cbn [fst snd].
    rewrite <- app_assoc. cbn [app].
    unfold ret, next_bytes. cbn [entropy drawn]. f_equal. f_equal. lia.
Qed.


Lemma id_of_byte_inj (b b' : Byte.byte) : id_of_byte b = id_of_byte b' -> b = b'.
Proof.
  unfold id_of_byte, byte_value. intros [= H].
  apply N2Z.inj in H.
  pose proof (Byte.of_to_N b) as Hb. pose proof (Byte.of_to_N b') as Hb'.
  rewrite H in Hb. congruence.
Qed.

(** X13: the identifiers issued by a run of calls are pairwise distinct exactly
    when the bytes the random source gives for them are. *)
Theorem createPattern_ids_distinct_iff (calls : list (jsval * jsval)) (w : World) :
  NoDup (fst (createPattern_each calls w)) <-> NoDup (next_bytes w (length calls)).
Proof.
  rewrite createPattern_each_run. cbn [fst].
  split.
  - apply NoDup_fmap_1.
  - apply NoDup_fmap_2. intros b b'. apply id_of_byte_inj.
Qed.

(** With a source that counts, 256 calls do get 256 different identifiers:
    the bound of 257 calls for a certain repetition cannot be lowered. *)
Example createPattern_256_distinct :
  NoDup (fst (createPattern_each (replicate 256 (VNull, VStr "park"))
                (fresh_world network_down counting))).
Proof.
  rewrite createPattern_each_run. cbn [fst].
  apply NoDup_fmap_2; [intros b b'; apply id_of_byte_inj |].
  apply (NoDup_fmap_1 Byte.to_N).
  apply (bool_decide_unpack _). vm_compute. exact I.
Qed.

(** ** More on the geometry codec *)

Lemma point_text_cases (coords : list jsval) :
  point_text coords = point_text_by_cases coords.
Proof. destruct coords as [| x [| y rest]]; reflexivity. Qed.

(** X14: the codec reads the first two entries of each point and nothing
    else.  A point of two or more entries is written as its first two, a
    third coordinate being dropped; a point of one entry is written with the
    word undefined in second place, an empty point as undefined twice.  A
    geometry and the geometry of its first-two pairs make the same
    submission. *)
Theorem doWallpaper_reads_two_coordinates (g : list (list jsval)) (pid sid : jsval)
  (w : World) :
  targetWKT g
  = "POLYGON((" +:+ join_strings ", " (List.map point_text_by_cases g) +:+ "))"
  /\ targetWKT g = targetWKT (first_two <$> g)
  /\ doWallpaper g pid sid w = doWallpaper (first_two <$> g) pid sid w.
Proof.
  assert (H : targetWKT g = targetWKT (first_two <$> g)).
  { unfold targetWKT. do 3 f_equal.
    change (first_two <$> g) with (List.map first_two g).
    rewrite List.map_map. reflexivity. }
  split; [| split; [exact H |]].
  - rewrite targetWKT_points. unfold points_wkt. do 3 f_equal.
    apply List.map_ext. intros coords. apply point_text_cases.
  - unfold doWallpaper. rewrite <- H. reflexivity.
Qed.

Lemma append_cons (a : Ascii.ascii) (s t : string) :
  String a s +:+ t = String a (s +:+ t).
Proof. reflexivity. Qed.

Lemma append_assoc (s1 s2 s3 : string) : (s1 +:+ s2) +:+ s3 = s1 +:+ (s2 +:+ s3).
Proof.
  induction s1 as [| a s1 IH]; [reflexivity |].
  rewrite !append_cons, IH. reflexivity.
Qed.

(** X15: string coordinates go into the text as they are, without quoting: a
    single point whose first coordinate is a string holding a point, a comma
    and a number is written exactly as the two points it spells. *)
Theorem targetWKT_does_not_quote (p : list jsval) (x y : jsval) :
  targetWKT [[VStr (point_text p +:+ ", " +:+ ToString x); y]]
  = targetWKT [p; [x; y]].
Proof.
  rewrite !targetWKT_points. unfold points_wkt. cbn [List.map join_strings].
  change (point_text [VStr (point_text p +:+ ", " +:+ ToString x); y])
    with ((point_text p +:+ ", " +:+ ToString x) +:+ " " +:+ ToString y).
  change (point_text [x; y]) with (ToString x +:+ " " +:+ ToString y).
  rewrite !append_assoc. reflexivity.
Qed.

(** *** Integer geometries can be read back *)

Lemma occurs_app (c : Ascii.ascii) (s1 s2 : string) :
  occurs c (s1 +:+ s2) = occurs c s1 || occurs c s2.
Proof.
  induction s1 as [| a s1 IH]; [reflexivity |].
  rewrite append_cons. cbn [occurs]. rewrite IH, orb_assoc. reflexivity.
Qed.

Lemma fields_without (c : Ascii.ascii) (s : string) :
  occurs c s = false -> fields c s = [s].
Proof.
  induction s as [| a s IH]; cbn; [reflexivity |].
  intros H. apply orb_false_iff in H as [Ha Hs].
  rewrite Ha, (IH Hs). reflexivity.
Qed.

Lemma fields_app (c : Ascii.ascii) (s1 s2 : string) :
  occurs c s1 = false ->
  fields c (s1 +:+ String c s2) = s1 :: fields c s2.
Proof.
  induction s1 as [| a s1 IH].
  - intros _. change ("" +:+ String c s2) with (String c s2).
    cbn [fields]. rewrite Ascii.eqb_refl. reflexivity.
  - intros H. cbn [occurs] in H. apply orb_false_iff in H as [Ha Hs].
    rewrite append_cons. cbn [fields]. rewrite Ha, (IH Hs). reflexivity.
Qed.

Lemma uint_text_numeric (d : Decimal.uint) (c : Ascii.ascii) :
  numeric_char c = false -> occurs c (NilEmpty.string_of_uint d) = false.
Proof.
  intros Hc. induction d; cbn [NilEmpty.string_of_uint occurs];
    try reflexivity; rewrite IHd, orb_false_r;
    match goal with
    | |- Ascii.eqb ?a c = false =>
        destruct (Ascii.eqb_spec a c) as [<- |]; [vm_compute in Hc; discriminate Hc | reflexivity]
    end.
Qed.

Lemma Number_toString_numeric (z : Z) (c : Ascii.ascii) :
  numeric_char c = false -> occurs c (Number_toString z) = false.
Proof.
  intros Hc. unfold Number_toString.
  assert (Hu : forall d, occurs c (NilZero.string_of_uint d) = false).
  { intros d. destruct d; try apply uint_text_numeric; try exact Hc.
    cbn [NilZero.string_of_uint occurs]. rewrite orb_false_r.
    destruct (Ascii.eqb_spec "0"%char c) as [<- |];
      [vm_compute in Hc; discriminate Hc | reflexivity]. }
  destruct (Z.to_int z) as [d | d]; cbn [NilZero.string_of_int occurs].
  - apply Hu.
  - rewrite Hu, orb_false_r.
    destruct (Ascii.eqb_spec "-"%char c) as [<- |];
      [vm_compute in Hc; discriminate Hc | reflexivity].
Qed.

Lemma read_number_of_text (z : Z) : read_number (Number_toString z) = Some z.
Proof.
  unfold read_number, Number_toString.
  rewrite NilZero.isi.
  - cbn. rewrite DecimalZ.of_to. reflexivity.
  - destruct z; cbn; try discriminate.
    intros [= H]. exact (DecimalPos.Unsigned.to_uint_nonnil _ H).
  - destruct z; cbn; try discriminate.
    intros [= H]. exact (DecimalPos.Unsigned.to_uint_nonnil _ H).
Qed.

Lemma Number_toString_starts (z : Z) :
  exists a rest, Number_toString z = String a rest /\ numeric_char a = true.
Proof.
  pose proof (read_number_of_text z) as Hread.
  pose proof (fun c => Number_toString_numeric z c) as Hnum.
  destruct (Number_toString z) as [| a rest]; [discriminate Hread |].
  exists a, rest. split; [reflexivity |].
  destruct (numeric_char a) eqn:Ha; [reflexivity |].
  specialize (Hnum a Ha). cbn in Hnum. rewrite Ascii.eqb_refl in Hnum. discriminate.
Qed.

Lemma point_text_integer (p : Z * Z) :
  point_text (integer_point p)
  = Number_toString (fst p) +:+ String " " (Number_toString (snd p)).
Proof. reflexivity. Qed.

Lemma occurs_point_text (c : Ascii.ascii) (p : Z * Z) :
  numeric_char c = false -> Ascii.eqb " " c = false ->
  occurs c (point_text (integer_point p)) = false.
Proof.
  intros Hc Hsp. rewrite point_text_integer, occurs_app. cbn [occurs].
  rewrite !Number_toString_numeric, Hsp by exact Hc. reflexivity.
Qed.

Lemma read_point_of_text (p : Z * Z) :
  read_point (point_text (integer_point p)) = Some p.
Proof.
  rewrite point_text_integer. unfold read_point.
  rewrite fields_app by (apply Number_toString_numeric; reflexivity).
  rewrite fields_without by (apply Number_toString_numeric; reflexivity).
  rewrite !read_number_of_text. destruct p; reflexivity.
Qed.

Lemma strip_space_point_text (p : Z * Z) :
  strip_space (point_text (integer_point p)) = point_text (integer_point p).
Proof.
  rewrite point_text_integer.
  destruct (Number_toString_starts (fst p)) as (a & rest & -> & Ha).
  rewrite append_cons. cbn [strip_space].
  destruct (Ascii.eqb_spec a " ") as [-> |]; [vm_compute in Ha; discriminate Ha |].
  reflexivity.
Qed.

Lemma ring_text_cons2 (p q : list jsval) (r : list (list jsval)) :
  join_strings ", " (List.map point_text (p :: q :: r))
  = point_text p
    +:+ String "," (String " " (join_strings ", " (List.map point_text (q :: r)))).
Proof. reflexivity. Qed.

Lemma fields_ring (ps : list (Z * Z)) :
  forall p,
    fields "," (join_strings ", " (List.map point_text (integer_point <$> p :: ps)))
    = point_text (integer_point p)
      :: List.map (fun q => String " " (point_text (integer_point q))) ps.
Proof.
  induction ps as [| q r IH]; intros p.
  - cbn [fmap list_fmap List.map join_strings].
    apply fields_without. apply occurs_point_text; reflexivity.
  - change (integer_point <$> p :: q :: r)
      with (integer_point p :: integer_point q :: (integer_point <$> r)).
    rewrite ring_text_cons2.
    rewrite fields_app by (apply occurs_point_text; reflexivity).
    f_equal. cbn [fields].
    change (Ascii.eqb " " ",") with false. cbv iota.
    change (integer_point q :: (integer_point <$> r)) with (integer_point <$> q :: r).
    rewrite IH. reflexivity.
Qed.

Lemma read_points_spaced (ps : list (Z * Z)) :
  read_points (List.map (fun q => String " " (point_text (integer_point q))) ps) = Some ps.
Proof.
  induction ps as [| q r IH]; [reflexivity |].
  cbn [List.map read_points]. rewrite IH.
  change (strip_space (String " " (point_text (integer_point q))))
    with (point_text (integer_point q)).
  rewrite read_point_of_text. reflexivity.
Qed.

Lemma occurs_ring_text (c : Ascii.ascii) (g : list (Z * Z)) :
  numeric_char c = false -> Ascii.eqb " " c = false -> Ascii.eqb "," c = false ->
  occurs c (join_strings ", " (List.map point_text (integer_point <$> g))) = false.
Proof.
  intros Hc Hsp Hcomma. induction g as [| p [| q r] IH].
  - reflexivity.
  - apply occurs_point_text; assumption.
  - change (integer_point <$> p :: q :: r)
      with (integer_point p :: integer_point q :: (integer_point <$> r)).
    rewrite ring_text_cons2, occurs_app. cbn [occurs].
    rewrite occurs_point_text, Hsp, Hcomma by assumption.
    exact IH.
Qed.

Lemma strip_prefix_app (pre s : string) : strip_prefix pre (pre +:+ s) = Some s.
Proof.
  induction pre as [| a pre IH]; [destruct s; reflexivity |].
  rewrite append_cons. cbn [strip_prefix]. rewrite Ascii.eqb_refl. exact IH.
Qed.

Lemma ring_text_not_empty (p : Z * Z) (ps : list (Z * Z)) :
  String.eqb (join_strings ", " (List.map point_text (integer_point <$> p :: ps))) "" = false.
Proof.
  destruct ps as [| q r].
  - cbn [fmap list_fmap List.map join_strings]. rewrite point_text_integer.
    destruct (Number_toString_starts (fst p)) as (a & rest & -> & _). reflexivity.
  - change (integer_point <$> p :: q :: r)
      with (integer_point p :: integer_point q :: (integer_point <$> r)).
    rewrite ring_text_cons2, point_text_integer.
    destruct (Number_toString_starts (fst p)) as (a & rest & -> & _). reflexivity.
Qed.

Lemma read_wkt_of_targetWKT (g : list (Z * Z)) :
  read_wkt (targetWKT (integer_point <$> g)) = Some g.
Proof.
  rewrite targetWKT_points. unfold points_wkt, read_wkt.
  rewrite strip_prefix_app.
  change "))" with (String ")" ")").
  rewrite fields_app by (apply occurs_ring_text; reflexivity).
  destruct g as [| p ps]; [reflexivity |].
  rewrite ring_text_not_empty, fields_ring.
  cbn [read_points]. rewrite strip_space_point_text, read_point_of_text, read_points_spaced.
  reflexivity.
Qed.

(** X16: on geometries of integer coordinate pairs within the safe range the
    codec loses nothing: two different geometries are written as two
    different polygon texts. *)
Theorem targetWKT_injective_on_integers (g g' : list (Z * Z)) :
  safe_geometry g = true -> safe_geometry g' = true ->
  g <> g' ->
  targetWKT (integer_point <$> g) <> targetWKT (integer_point <$> g').
Proof.
  intros _ _ Hne H. apply Hne.
  apply (f_equal read_wkt) in H.
  rewrite !read_wkt_of_targetWKT in H. congruence.
Qed.

(** X16 at the points (1, 23) and (12, 3), which hold the same digits. *)
Lemma targetWKT_injective_on_integers_witness :
  targetWKT (integer_point <$> [(1, 23)]) <> targetWKT (integer_point <$> [(12, 3)]).
Proof.
  apply (targetWKT_injective_on_integers [(1, 23)] [(12, 3)]);
    [reflexivity | reflexivity | discriminate].
Defined.

(** ** Looking a code up *)

Lemma Number_toString_inj (z z' : Z) : Number_toString z = Number_toString z' -> z = z'.
Proof.
  intros H. apply (f_equal read_number) in H.
  rewrite !read_number_of_text in H. congruence.
Qed.

(** X17: reading the code table at a number, as in [codes[c]]: the codes 1 to 5
    give a category name, every other integer gives undefined. *)
Theorem lulc_code_lookup (w : World) :
  exists codes,
    fst (getLulcCodes w) = Fulfilled (VObj codes)
    /\ forall c : Z,
         (1 <= c <= 5 ->
          exists name,
            lookup_prop (Number_toString c) codes = VStr name /\ name ∈ category_names)
         /\ (c < 1 \/ 5 < c -> lookup_prop (Number_toString c) codes = VUndefined).
Proof.
  eexists. split; [reflexivity |]. intros c. split.
  - intros Hc.
    assert (Hcases : c = 1 \/ c = 2 \/ c = 3 \/ c = 4 \/ c = 5) by lia.
    unfold category_names.
    destruct Hcases as [-> | [-> | [-> | [-> | ->]]]];
      eexists; (split; [reflexivity |]);
      rewrite !elem_of_union, !elem_of_singleton; tauto.
  - intros Hc. cbn [lookup_prop].
    repeat match goal with
    | |- context [String.eqb ?k (Number_toString c)] =>
        destruct (String.eqb_spec k (Number_toString c)) as [Heq | _];
        [ exfalso;
          first [ apply (Number_toString_inj 1 c) in Heq
                | apply (Number_toString_inj 2 c) in Heq
                | apply (Number_toString_inj 3 c) in Heq
                | apply (Number_toString_inj 4 c) in Heq
                | apply (Number_toString_inj 5 c) in Heq ]; lia
        | ]
    end.
    reflexivity.
Qed.

(** The code table read at 3 and at 9. *)
Lemma lulc_code_lookup_witness :
  exists codes,
    fst (getLulcCodes (fresh_world garbled sevens)) = Fulfilled (VObj codes)
    /\ (exists name,
          lookup_prop (Number_toString 3) codes = VStr name /\ name ∈ category_names)
    /\ lookup_prop (Number_toString 9) codes = VUndefined.
Proof.
  destruct (lulc_code_lookup (fresh_world garbled sevens)) as (codes & Hcodes & Hall).
  exists codes. split; [exact Hcodes |]. split.
  - apply (proj1 (Hall 3)). split; vm_compute; discriminate.
  - apply (proj2 (Hall 9)). right. reflexivity.
Defined.

(** ** The layer names *)

(** X18: no layer name is listed twice, neither within one of the two lists nor
    across them: the 17 label layers and the 93 other layers are 110
    different names. *)
Theorem layer_names_distinct :
  NoDup (labels ++ nonLabels)
  /\ length labels = 17%nat /\ length nonLabels = 93%nat.
Proof.
  split; [| split; reflexivity].
  apply (bool_decide_unpack _). vm_compute. exact I.
Qed.

(** X19: the label layers are the layers whose name ends in -label or -shield:
    that test picks exactly [labels] out of all the names. *)
Theorem labels_selected_by_suffix :
  List.filter (fun name => ends_with "-label" name || ends_with "-shield" name)
    (labels ++ nonLabels)
  = labels.
Proof. vm_compute. reflexivity. Qed.

(** ** The submission on arbitrary arguments *)

Lemma point_text_any_passes (coords : jsval) :
  if point_passes coords
  then exists x y,
         element coords 0 = Fulfilled x /\ element coords 1 = Fulfilled y
         /\ point_text_any coords = Fulfilled (ToString x +:+ " " +:+ ToString y)
  else exists msg, point_text_any coords = Rejected (VError "TypeError" msg).
Proof.
  unfold point_passes, point_text_any, template_text.
  destruct (element coords 0) as [x | e0] eqn:H0.
  - destruct (element coords 1) as [y | e1] eqn:H1.
    + destruct (converts x), (converts y); cbn [andb]; eauto.
    + assert (exists msg, e1 = VError "TypeError" msg) as [msg ->].
      { destruct coords; cbn in H1; try discriminate; injection H1 as <-; eauto. }
      destruct (converts x); eauto.
  - assert (exists msg, e0 = VError "TypeError" msg) as [msg ->].
    { destruct coords; cbn in H0; try discriminate; injection H0 as <-; eauto. }
    destruct (element coords 1); eauto.
Qed.

Lemma map_settled_passes (elems : list jsval) :
  if forallb point_passes elems
  then exists texts, map_settled point_text_any elems = Fulfilled texts
  else exists msg, map_settled point_text_any elems = Rejected (VError "TypeError" msg).
Proof.
  induction elems as [| c rest IH]; cbn [forallb map_settled]; [eauto |].
  pose proof (point_text_any_passes c) as Hc.
  destruct (point_passes c); cbn [andb].
  - destruct Hc as (x & y & _ & _ & ->).
    destruct (forallb point_passes rest).
    + destruct IH as [texts ->]. eauto.
    + destruct IH as [msg ->]. eauto.
  - destruct Hc as [msg ->]. eauto.
Qed.

(** X20: on any value given as geometry, [doWallpaper] either throws while it
    builds the text or submits.  A value that is not an array, an array that
    holds undefined or null, or a coordinate that does not convert makes the
    promise reject with a TypeError, with nothing sent and nothing logged;
    every other geometry, whatever the number of its points, is submitted in
    one POST request to [/wallpaper] and the promise is fulfilled.  It never
    fails with InvalidArgument. *)
Theorem doWallpaper_any_throws_or_transmits (targetCoords pid sid : jsval) (w : World) :
  (if geometry_passes targetCoords
   then exists rq v,
          sent (snd (doWallpaper_any targetCoords pid sid w)) = sent w ++ [rq]
          /\ url rq = apiBaseURL +:+ "/wallpaper" /\ method rq = "post"
          /\ fst (doWallpaper_any targetCoords pid sid w) = Fulfilled v
   else exists msg,
          doWallpaper_any targetCoords pid sid w = (Rejected (VError "TypeError" msg), w))
  /\ fails_with "InvalidArgument" (fst (doWallpaper_any targetCoords pid sid w)) = false.
Proof.
  assert (H : if geometry_passes targetCoords
              then exists rq v,
                  sent (snd (doWallpaper_any targetCoords pid sid w)) = sent w ++ [rq]
                  /\ url rq = apiBaseURL +:+ "/wallpaper" /\ method rq = "post"
                  /\ fst (doWallpaper_any targetCoords pid sid w) = Fulfilled v
              else exists msg,
                  doWallpaper_any targetCoords pid sid w
                  = (Rejected (VError "TypeError" msg), w)).
  { destruct targetCoords; cbn [geometry_passes doWallpaper_any]; unfold ret; eauto.
    pose proof (map_settled_passes elems) as Hm.
    destruct (forallb point_passes elems).
    - destruct Hm as [texts ->].
      unfold then_, catch_, returns; unfold bind, fetch, ret, console_log, Response_json.
      cbn [sent server console entropy drawn fst snd].
      match goal with
      | |- context [server w (sent w) ?rq] =>
          exists rq; destruct (server w (sent w) rq) as [reason | [code [v | msg]]]
      end; cbn [payload sent fst snd url method]; eauto.
    - destruct Hm as [msg ->]. eauto. }
  split; [exact H |].
  destruct (geometry_passes targetCoords).
  - destruct H as (rq & v & _ & _ & _ & ->). reflexivity.
  - destruct H as [msg ->]. reflexivity.
Qed.

Lemma map_settled_points (g : list (list jsval)) :
  geometry_converts g = true ->
  map_settled point_text_any (VArr <$> g) = Fulfilled (List.map point_text g).
Proof.
  unfold geometry_converts. induction g as [| coords rest IH]; [reflexivity |].
  cbn [forallb]. intros H. apply andb_true_iff in H as [Hc Hrest].
  apply andb_true_iff in Hc as [H0 H1].
  cbn [fmap list_fmap map_settled]. unfold point_text_any at 1.
  cbn [element]. unfold template_text. rewrite H0, H1.
  change (list_fmap _ _ VArr rest) with (VArr <$> rest). rewrite (IH Hrest).
  reflexivity.
Qed.

(** X21: on an array of arrays whose coordinates convert, the submission on
    arbitrary arguments is the submission on geometries: same text, same
    request, same result. *)
Theorem doWallpaper_any_on_geometries (g : list (list jsval)) (pid sid : jsval)
  (w : World) :
  geometry_converts g = true ->
  geometry_passes (VArr (VArr <$> g)) = true
  /\ doWallpaper_any (VArr (VArr <$> g)) pid sid w = doWallpaper g pid sid w.
Proof.
  intros H. split.
  - cbn [geometry_passes]. unfold geometry_converts in H.
    rewrite forallb_forall in *. intros c Hc.
    apply in_map_iff in Hc as (coords & <- & Hin).
    exact (H coords Hin).
  - cbn [doWallpaper_any]. rewrite (map_settled_points g H).
    unfold doWallpaper. rewrite targetWKT_points. reflexivity.
Qed.

(** X21 at the square. *)
Lemma doWallpaper_any_on_geometries_witness :
  geometry_passes (VArr (VArr <$> square)) = true
  /\ doWallpaper_any (VArr (VArr <$> square)) (VStr "P1") (VStr "S1")
       (fresh_world network_down sevens)
     = doWallpaper square (VStr "P1") (VStr "S1") (fresh_world network_down sevens).
Proof.
  apply (doWallpaper_any_on_geometries square (VStr "P1") (VStr "S1")
           (fresh_world network_down sevens)).
  reflexivity.
Defined.

(** The geometries undefined and [[null]] throw before anything is sent. *)
Example doWallpaper_any_undefined :
  doWallpaper_any VUndefined (VStr "P1") (VStr "S1") (fresh_world network_down sevens)
  = (Rejected (VError "TypeError" "Cannot read properties of undefined (reading 'map')"),
     fresh_world network_down sevens)
  /\ doWallpaper_any (VArr [VNull]) (VStr "P1") (VStr "S1") (fresh_world network_down sevens)
     = (Rejected (VError "TypeError" "Cannot read properties of null (reading '0')"),
        fresh_world network_down sevens).
Proof. split; reflexivity. Qed.
